(** * CordIDMonitor: identity resolution, event correlation and history

    A shallow embedding of the parts of [cord_id_monitor] that decide how
    a USB device is identified, how hot-plug events are correlated, and
    how the speed history, the registry and the event log evolve:

    - [core.py]:  [USBDevice] (snapshot construction, [stable_id],
      [get_friendly_name]) and [DeviceManager] ([list_devices] and one
      iteration of [_monitor_loop]);
    - [utils.py]: [format_speed];
    - [ui.py]:    the link-health check of [MonitoringPage.update_view]
      and [MainWindow.handle_device_event].

    Python strings are modelled as [string] (sequences of 8-bit
    characters, so the model covers ASCII text), Python [int] as [Z],
    dictionaries as [gmap], the event log as a [list].  Exceptions are
    explicit: a computation that can raise returns a [result]. *)

From Stdlib Require Import ZArith String Ascii List Bool Lia DecimalString DecimalPos.
From stdpp Require Import base option gmap strings list.

Import ListNotations.
Local Open Scope string_scope.
Local Open Scope Z_scope.

(** ** Python built-ins used by the program *)

Module Py.

(** The exceptions that can occur in the modelled code. *)
Inductive exn : Type :=
| ValueError
| OverflowError
| UnboundLocalError.

(** The outcome of an expression that may raise. *)
Inductive result (A : Type) : Type :=
| Ok (a : A)
| Raise (e : exn).
Arguments Ok {A} a.
Arguments Raise {A} e.

Definition code (c : ascii) : Z := Z.of_nat (nat_of_ascii c).

(** [str.isspace] on the ASCII range: TAB, LF, VT, FF, CR, the four
    separators FS, GS, RS, US and the space. *)
Definition isspace (c : ascii) : bool :=
  ((9 <=? code c) && (code c <=? 13)) || ((28 <=? code c) && (code c <=? 32)).

(** The white space [int()] skips around a literal: TAB, LF, VT, FF,
    CR and the space (the separators 28..31 are not accepted). *)
Definition int_space (c : ascii) : bool :=
  ((9 <=? code c) && (code c <=? 13)) || (code c =? 32).

Fixpoint lstrip_by (sp : ascii -> bool) (s : string) : string :=
  match s with
  | String c s' => if sp c then lstrip_by sp s' else s
  | EmptyString => EmptyString
  end.

Fixpoint rstrip_by (sp : ascii -> bool) (s : string) : string :=
  match s with
  | EmptyString => EmptyString
  | String c s' =>
      match rstrip_by sp s' with
      | EmptyString => if sp c then EmptyString else String c EmptyString
      | r => String c r
      end
  end.

(** [s.strip()] *)
Definition strip (s : string) : string :=
  rstrip_by isspace (lstrip_by isspace s).

(** [s.replace(old, new)] for one-character [old] and [new]. *)
Fixpoint replace_char (old new : ascii) (s : string) : string :=
  match s with
  | EmptyString => EmptyString
  | String c s' =>
      String (if Ascii.eqb c old then new else c) (replace_char old new s')
  end.

(** [s.upper()] on the ASCII range. *)
Definition upper_char (c : ascii) : ascii :=
  if (97 <=? code c) && (code c <=? 122)
  then ascii_of_nat (nat_of_ascii c - 32) else c.

Fixpoint upper (s : string) : string :=
  match s with
  | EmptyString => EmptyString
  | String c s' => String (upper_char c) (upper s')
  end.

(** [sub in s] *)
Fixpoint contains (sub s : string) : bool :=
  String.prefix sub s ||
  match s with
  | EmptyString => false
  | String _ s' => contains sub s'
  end.

(** Truth value of a string: [bool(s)]. *)
Definition nonempty (s : string) : bool :=
  match s with
  | EmptyString => false
  | String _ _ => true
  end.

(** Truth value of an optional string ([None] and [""] are false). *)
Definition truthy (o : option string) : bool :=
  match o with
  | Some s => nonempty s
  | None => false
  end.

(** [str(n)] and [f"{n}"] for an [int]. *)
Definition str (n : Z) : string := NilZero.string_of_int (Z.to_int n).

Definition digit (c : ascii) : option Z :=
  if (48 <=? code c) && (code c <=? 57) then Some (code c - 48) else None.

(** The digits of an [int] literal after its first digit: digits,
    with single underscores allowed between two digits.  [acc] is the
    value read so far, [n] the number of digits read, [us] tells
    whether the previous character was an underscore. *)
Fixpoint int_digits (s : string) (us : bool) (acc : Z) (n : nat)
  : option (Z * nat) :=
  match s with
  | EmptyString => if us then None else Some (acc, n)
  | String c s' =>
      if Ascii.eqb c "_"%char then
        if us then None else int_digits s' true acc n
      else
        match digit c with
        | Some d => int_digits s' false (10 * acc + d) (S n)
        | None => None
        end
  end.

(** [sys.get_int_max_str_digits()], CPython's default. *)
Definition int_max_str_digits : nat := 4300.

Definition int_unsigned (s : string) : option Z :=
  match s with
  | EmptyString => None
  | String c s' =>
      match digit c with
      | Some d =>
          match int_digits s' false d 1 with
          | Some (v, n) =>
              if (n <=? int_max_str_digits)%nat then Some v else None
          | None => None
          end
      | None => None
      end
  end.

(** [int(s)] for a string [s], base 10: [None] stands for
    [ValueError]. *)
Definition int (s : string) : option Z :=
  match rstrip_by int_space (lstrip_by int_space s) with
  | String "+" s' => int_unsigned s'
  | String "-" s' => Z.opp <$> int_unsigned s'
  | s' => int_unsigned s'
  end.

(** *** Floats: [f"{a/b:g}"]

    [a/b] on two [int]s is the binary64 number nearest to the exact
    quotient (ties to even), and [OverflowError] when that is beyond
    the range of a float.  The format [:g] prints it with six
    significant digits, correctly rounded from the binary value,
    without trailing zeros, in scientific notation from [1e+06] on.
    The program only divides a positive dividend by a smaller positive
    divisor, so the definitions cover quotients that are at least 1. *)

(** [floor (a / (b * 2^e))] and the remainder's fraction as a pair
    (numerator, denominator). *)
Definition scale2 (a b e : Z) : Z * Z :=
  if 0 <=? e then (a, b * 2 ^ e) else (a * 2 ^ (- e), b).

Definition round_half_even (num den : Z) : Z :=
  let q := num / den in
  let r := num mod den in
  if (den <? 2 * r) || ((den =? 2 * r) && Z.odd q) then q + 1 else q.

(** The float [a/b] as (mantissa, exponent): the value is
    [mantissa * 2^exponent] with [2^52 <= mantissa < 2^53];
    [None] is [OverflowError]. *)
Definition true_div (a b : Z) : option (Z * Z) :=
  let k := Z.log2 a - Z.log2 b in
  let e0 := k - 52 in
  let e := (let '(n, d) := scale2 a b e0 in
            if n / d <? 2 ^ 52 then e0 - 1 else e0) in
  let '(n, d) := scale2 a b e in
  let m := round_half_even n d in
  let '(m, e) := if m =? 2 ^ 53 then (2 ^ 52, e + 1) else (m, e) in
  if 971 <? e then None else Some (m, e).

Fixpoint rstrip_zeros (s : string) : string :=
  match s with
  | EmptyString => EmptyString
  | String c s' =>
      match rstrip_zeros s' with
      | EmptyString =>
          if Ascii.eqb c "0"%char then EmptyString else String c EmptyString
      | r => String c r
      end
  end.

(** [format(x, "g")] for a float [x = m * 2^e >= 1]. *)
Definition format_g (m e : Z) : string :=
  let '(num, den) := scale2 m 1 (- e) in
  let x0 := Z.of_nat (String.length (str (num / den))) - 1 in
  let d0 := if 5 <=? x0
            then round_half_even num (den * 10 ^ (x0 - 5))
            else round_half_even (num * 10 ^ (5 - x0)) den in
  let '(d, x) := if d0 =? 10 ^ 6 then (10 ^ 5, x0 + 1) else (d0, x0) in
  let ds := str d in
  if x <? 6 then
    let ip := String.substring 0 (Z.to_nat (x + 1)) ds in
    let fp := rstrip_zeros
                (String.substring (Z.to_nat (x + 1)) (Z.to_nat (5 - x)) ds) in
    if nonempty fp then ip +:+ "." +:+ fp else ip
  else
    let fp := rstrip_zeros (String.substring 1 5 ds) in
    String.substring 0 1 ds +:+ (if nonempty fp then "." +:+ fp else "")
      +:+ "e+" +:+ (if x <? 10 then "0" else "") +:+ str x.

(** [f"{a/b:g}"] for [0 < b <= a]. *)
Definition format_g_div (a b : Z) : result string :=
  match true_div a b with
  | Some (m, e) => Ok (format_g m e)
  | None => Raise OverflowError
  end.

(** [s.split(sep)] for a one-character separator: the pieces between
    the separators, the empty ones included. *)
Fixpoint split_char (sep : ascii) (s : string) : list string :=
  match s with
  | EmptyString => [EmptyString]
  | String c s' =>
      if Ascii.eqb c sep then EmptyString :: split_char sep s'
      else
        match split_char sep s' with
        | piece :: pieces => String c piece :: pieces
        | [] => [String c EmptyString]
        end
  end.

(** [l > c] on two lists of [int]: the lexicographic order, a proper
    prefix being smaller. *)
Fixpoint list_gt (l c : list Z) : bool :=
  match l, c with
  | [], _ => false
  | _ :: _, [] => true
  | x :: l', y :: c' => if x =? y then list_gt l' c' else y <? x
  end.

(** [[int(x) for x in pieces]]: [None] when one [int] raises. *)
Definition ints (pieces : list string) : option (list Z) :=
  mapM int pieces.

End Py.

(** ** utils.py *)

Module Utils.

(** [format_speed(speed_mbps_str)]: the pair (formatted string, USB
    marketing label).  The only exception that can leave the function
    is the [OverflowError] of [mbps/1000]; the [ValueError] of [int]
    is caught. *)
Definition format_speed (speed_mbps_str : string)
  : Py.result (string * string) :=
  if negb (Py.nonempty speed_mbps_str) || String.eqb speed_mbps_str "N/A"
  then Py.Ok ("Unknown", "")
  else
    match Py.int speed_mbps_str with
    | None => Py.Ok (speed_mbps_str, "")
    | Some mbps =>
        if mbps =? 1 then Py.Ok ("1.5 Mbps", "USB 1.1 Low Speed")
        else if mbps =? 12 then Py.Ok ("12 Mbps", "USB 1.1 Full Speed")
        else if mbps =? 480 then Py.Ok ("480 Mbps", "USB 2.0 High Speed")
        else if mbps =? 5000
          then Py.Ok ("5 Gbps", "USB 3.2 Gen 1 (SuperSpeed)")
        else if mbps =? 10000
          then Py.Ok ("10 Gbps", "USB 3.2 Gen 2 (SuperSpeed+)")
        else if mbps =? 20000
          then Py.Ok ("20 Gbps", "USB 3.2 Gen 2x2 (SuperSpeed+ 20G)")
        else if mbps =? 40000 then Py.Ok ("40 Gbps", "USB4 Gen 3x2")
        else if mbps =? 80000 then Py.Ok ("80 Gbps", "USB4 Gen 4 (USB4 v2)")
        else if 1000 <=? mbps then
          match Py.format_g_div mbps 1000 with
          | Py.Ok g => Py.Ok (g +:+ " Gbps", "")
          | Py.Raise e => Py.Raise e
          end
        else Py.Ok (Py.str mbps +:+ " Mbps", "")
    end.

(** [get_usb_version_label(version_str)] *)
Definition get_usb_version_label (version_str : string) : string :=
  if negb (Py.nonempty version_str) || String.eqb version_str "N/A"
  then "Unknown"
  else
    let v := Py.strip version_str in
    if String.prefix "1.1" v then "USB 1.1"
    else if String.prefix "2.0" v then "USB 2.0"
    else if String.prefix "2.1" v then "USB 2.1"
    else if String.prefix "3.0" v then "USB 3.0"
    else if String.prefix "3.1" v then "USB 3.1"
    else if String.prefix "3.2" v then "USB 3.2"
    else if String.prefix "4.0" v then "USB4"
    else "USB " +:+ v.

(** [while len(parts) < 3: parts.append(0)] *)
Definition normalize_length (parts : list Z) : list Z :=
  (parts ++ repeat 0 (3 - length parts))%list.

(** [UpdateChecker._is_newer(current, latest)] on two strings; every
    exception inside is caught and gives [False]. *)
Definition _is_newer (current latest : string) : bool :=
  match Py.ints (Py.split_char "." current) with
  | None => false
  | Some c_parts =>
      match Py.ints (Py.split_char "." latest) with
      | None => false
      | Some l_parts =>
          Py.list_gt (normalize_length l_parts) (normalize_length c_parts)
      end
  end.

End Utils.

(** ** core.py *)

Module Core.

(** What the program reads of a [pyudev.Device]: its two names, its
    property table, and the attribute files that can be read under
    its [sys_path] when the snapshot is taken (a file that is absent
    from [u_sysfs] raises [IOError] on [open]). *)
Record UdevDevice : Type := {
  u_sys_path : string;
  u_sys_name : string;
  u_device_node : option string;
  u_properties : gmap string string;
  u_sysfs : gmap string string
}.

(** A device received from the monitor carries its action. *)
Record MonitorEvent : Type := {
  action : string;
  device : UdevDevice
}.

(** [class USBDevice] *)
Record USBDevice : Type := {
  _forced_stable_id : option string;
  sys_path : string;
  sys_name : string;
  device_node : option string;
  vendor : string;
  model : string;
  serial : option string;
  vid : string;
  pid : string;
  bus_num : string;
  dev_num : string;
  dev_path : string;
  speed : string;
  version : string;
  max_power : string;
  num_interfaces : string
}.

(** [udev_device.get(key, dflt)] *)
Definition get (udev_device : UdevDevice) (key dflt : string) : string :=
  default dflt (u_properties udev_device !! key).

(** [USBDevice._read_sysfs_attr] *)
Definition _read_sysfs_attr (udev_device : UdevDevice) (attr : string)
  : string :=
  match u_sysfs udev_device !! attr with
  | Some content => Py.strip content
  | None => default "N/A" (u_properties udev_device !! Py.upper attr)
  end.

(** [USBDevice.__init__] *)
Definition USBDevice_init (udev_device : UdevDevice) : USBDevice :=
  {| _forced_stable_id := None;
     sys_path := u_sys_path udev_device;
     sys_name := u_sys_name udev_device;
     device_node := u_device_node udev_device;
     vendor := get udev_device "ID_VENDOR" "Unknown";
     model := get udev_device "ID_MODEL" "Unknown";
     serial := u_properties udev_device !! "ID_SERIAL_SHORT";
     vid := get udev_device "ID_VENDOR_ID" "----";
     pid := get udev_device "ID_MODEL_ID" "----";
     bus_num := get udev_device "BUSNUM" "?";
     dev_num := get udev_device "DEVNUM" "?";
     dev_path := get udev_device "DEVPATH" "";
     speed := _read_sysfs_attr udev_device "speed";
     version := _read_sysfs_attr udev_device "version";
     max_power := _read_sysfs_attr udev_device "bMaxPower";
     num_interfaces := _read_sysfs_attr udev_device "bNumInterfaces" |}.

(** [usb_dev._forced_stable_id = known_id] *)
Definition set_forced_stable_id (known_id : string) (d : USBDevice)
  : USBDevice :=
  {| _forced_stable_id := Some known_id;
     sys_path := sys_path d; sys_name := sys_name d;
     device_node := device_node d; vendor := vendor d; model := model d;
     serial := serial d; vid := vid d; pid := pid d;
     bus_num := bus_num d; dev_num := dev_num d; dev_path := dev_path d;
     speed := speed d; version := version d; max_power := max_power d;
     num_interfaces := num_interfaces d |}.

(** [USBDevice.stable_id] *)
Definition stable_id (self : USBDevice) : string :=
  if Py.truthy (_forced_stable_id self)
  then default "" (_forced_stable_id self)
  else if Py.truthy (serial self)
  then "SERIAL:" +:+ default "" (serial self)
  else "PATH:" +:+ vid self +:+ ":" +:+ pid self +:+ ":" +:+ sys_name self.

(** [USBDevice.get_friendly_name] *)
Definition get_friendly_name (self : USBDevice) : string :=
  let name := Py.strip (vendor self +:+ " " +:+ model self) in
  let name :=
    if String.eqb name "Unknown Unknown"
    then "USB Device (" +:+ vid self +:+ ":" +:+ pid self +:+ ")"
    else name in
  Py.replace_char "_" " " name.

(** [class DeviceManager]: the two dictionaries. *)
Record DeviceManager : Type := {
  _device_cache : gmap string USBDevice;
  _syspath_map : gmap string string
}.

(** [DeviceManager.__init__] *)
Definition DeviceManager_init : DeviceManager :=
  {| _device_cache := ∅; _syspath_map := ∅ |}.

(** [DeviceManager.list_devices]; [enumeration] is what
    [context.list_devices(subsystem='usb', DEVTYPE='usb_device')]
    yields.  The result is the manager after the call and the list
    that is returned. *)
Definition list_devices (self : DeviceManager)
    (enumeration : list UdevDevice) : DeviceManager * list USBDevice :=
  foldl
    (fun '(self, devices) device =>
       let usb_dev := USBDevice_init device in
       ({| _device_cache :=
             <[stable_id usb_dev := usb_dev]> (_device_cache self);
           _syspath_map :=
             <[sys_path usb_dev := stable_id usb_dev]> (_syspath_map self) |},
        (devices ++ [usb_dev])%list))
    (self, []) enumeration.

(** The body of [DeviceManager._monitor_loop] for one device that
    [poll] returned: the manager afterwards and the arguments
    [on_device_event] is called with. *)
Definition monitor_event (self : DeviceManager) (ev : MonitorEvent)
  : DeviceManager * (string * USBDevice) :=
  let usb_dev := USBDevice_init (device ev) in
  let action := action ev in
  (* Handle ID Persistence *)
  let '(syspath_map, usb_dev) :=
    if String.eqb action "add" then
      (<[sys_path usb_dev := stable_id usb_dev]> (_syspath_map self), usb_dev)
    else if String.eqb action "remove" || String.eqb action "unbind" then
      match _syspath_map self !! sys_path usb_dev with
      | Some known_id =>
          (if String.eqb action "remove"
           then delete (sys_path usb_dev) (_syspath_map self)
           else _syspath_map self,
           set_forced_stable_id known_id usb_dev)
      | None => (_syspath_map self, usb_dev)
      end
    else (_syspath_map self, usb_dev) in
  (* Update Cache *)
  let device_cache :=
    if String.eqb action "add" then
      <[stable_id usb_dev := usb_dev]> (_device_cache self)
    else if String.eqb action "remove" then
      delete (stable_id usb_dev) (_device_cache self)
    else _device_cache self in
  ({| _device_cache := device_cache; _syspath_map := syspath_map |},
   (action, usb_dev)).

(** [_monitor_loop] over the successive results of [poll] ([None]
    is a timeout): the manager at the end and the calls of
    [on_device_event], in order. *)
Definition _monitor_loop (self : DeviceManager)
    (polls : list (option MonitorEvent))
  : DeviceManager * list (string * USBDevice) :=
  foldl
    (fun '(self, calls) poll =>
       match poll with
       | Some ev =>
           let '(self, call) := monitor_event self ev in
           (self, (calls ++ [call])%list)
       | None => (self, calls)
       end)
    (self, []) polls.

End Core.

(** ** ui.py *)

Module Ui.

(** *** [MonitoringPage] *)

(** What the link-health check of [update_view] leaves behind: the
    history dictionary, whether [save_callback] was called (a new
    entry or an improved speed was stored), the three locals
    [is_downgraded], [known_max], [current_speed], and
    [downgrade_msg] when it was bound. *)
Record HealthCheck : Type := {
  history_cache : gmap string Z;
  saved : bool;
  is_downgraded : bool;
  known_max : Z;
  current_speed : Z;
  downgrade_msg : option string
}.

(** The [try] block of [update_view] with its handler: every
    exception raised inside is caught and printed, the assignments
    made before it stay. *)
Definition health_check (history : gmap string Z)
    (device : Core.USBDevice) (speed_str : string) : HealthCheck :=
  match Py.int (Core.speed device) with
  | None =>
      {| history_cache := history; saved := false; is_downgraded := false;
         known_max := 0; current_speed := 0; downgrade_msg := None |}
  | Some current_speed =>
      (* Update History *)
      let '(history, saved) :=
        match history !! Core.stable_id device with
        | None => (<[Core.stable_id device := current_speed]> history, true)
        | Some old =>
            if old <? current_speed
            then (<[Core.stable_id device := current_speed]> history, true)
            else (history, false)
        end in
      match history !! Core.stable_id device with
      | None =>
          {| history_cache := history; saved := saved;
             is_downgraded := false; known_max := 0;
             current_speed := current_speed; downgrade_msg := None |}
      | Some known_max =>
          if current_speed <? known_max then
            match Utils.format_speed (Py.str known_max) with
            | Py.Ok (max_speed_str, max_speed_moniker) =>
                let history_text :=
                  "We have previously observed this device on your system connect at "
                    +:+ max_speed_str +:+ " (" +:+ max_speed_moniker +:+ ")." in
                let downgrade_msg :=
                  if (current_speed <=? 480) && (5000 <=? known_max)
                  then "Running at legacy USB 2.0 speeds. " +:+ history_text
                  else "Running at " +:+ speed_str +:+ " but "
                         +:+ history_text in
                {| history_cache := history; saved := saved;
                   is_downgraded := true; known_max := known_max;
                   current_speed := current_speed;
                   downgrade_msg := Some downgrade_msg |}
            | Py.Raise _ =>
                {| history_cache := history; saved := saved;
                   is_downgraded := true; known_max := known_max;
                   current_speed := current_speed; downgrade_msg := None |}
            end
          else
            {| history_cache := history; saved := saved;
               is_downgraded := false; known_max := known_max;
               current_speed := current_speed; downgrade_msg := None |}
      end
  end.

(** The texts [update_view] puts on the page: the status, the speed
    and its label when they are set, and the tooltip of the
    downgrade badge when the badge is revealed. *)
Record View : Type := {
  lbl_status : string;
  lbl_speed : option (string * string);
  lbl_health : option string
}.

(** [MonitoringPage.update_view]: the history afterwards, and the
    view or the exception that leaves the method. *)
Definition update_view (history : gmap string Z) (device : Core.USBDevice)
    (connected : bool) : gmap string Z * Py.result View :=
  if connected then
    match Utils.format_speed (Core.speed device) with
    | Py.Raise e => (history, Py.Raise e)
    | Py.Ok (speed_str, speed_label) =>
        let lbl_speed_sub :=
          if Py.nonempty speed_label then speed_label
          else "Negotiated Link Speed" in
        let h := health_check history device speed_str in
        if is_downgraded h then
          match downgrade_msg h with
          | Some msg =>
              (history_cache h,
               Py.Ok {| lbl_status := "Connected";
                        lbl_speed := Some (speed_str, lbl_speed_sub);
                        lbl_health := Some msg |})
          | None => (history_cache h, Py.Raise Py.UnboundLocalError)
          end
        else
          (history_cache h,
           Py.Ok {| lbl_status := "Connected";
                    lbl_speed := Some (speed_str, lbl_speed_sub);
                    lbl_health := None |})
    end
  else
    (history,
     Py.Ok {| lbl_status := "Disconnected - Waiting...";
              lbl_speed := None; lbl_health := None |}).

(** *** [MainWindow] *)

(** An entry of [device_registry]. *)
Record RegistryEntry : Type := {
  name : string;
  speeds : gset Z;
  last_seen : string
}.

(** An entry of [event_log]. *)
Record LogEntry : Type := {
  time : string;
  event : string;
  device_name : string;
  speed : string;
  bus : string;
  version : string
}.

(** The data of [MainWindow]: the three persisted structures, the
    device manager, the name of the visible page of the stack and the
    identity the monitoring page is watching.  [device_history] is
    the dictionary the monitoring page holds as [history_cache]. *)
Record MainWindow : Type := {
  device_history : gmap string Z;
  event_log : list LogEntry;
  device_registry : gmap string RegistryEntry;
  device_manager : Core.DeviceManager;
  visible_child_name : string;
  current_target_id : option string
}.

(** [is_unknown_name] of [handle_device_event] *)
Definition is_unknown_name (friendly_name : string) : bool :=
  Py.contains "----:----" friendly_name || Py.contains "Unknown" friendly_name.

(** "1. Update Registry" of [handle_device_event], for the identity
    [stable_id] and the name [candidate] that [get_friendly_name]
    returned: the registry afterwards and the cleaned
    [friendly_name]. *)
Definition update_registry (device_registry : gmap string RegistryEntry)
    (stable_id candidate speed now_str : string)
  : gmap string RegistryEntry * string :=
  let is_unknown_name := is_unknown_name candidate in
  let friendly_name :=
    match device_registry !! stable_id with
    | Some entry => if is_unknown_name then name entry else candidate
    | None => candidate
    end in
  let device_registry :=
    match device_registry !! stable_id with
    | None =>
        <[stable_id := {| name := friendly_name; speeds := ∅;
                          last_seen := now_str |}]> device_registry
    | Some entry =>
        if negb is_unknown_name then
          <[stable_id := {| name := friendly_name; speeds := speeds entry;
                            last_seen := last_seen entry |}]> device_registry
        else device_registry
    end in
  (* Update last seen, add the speed *)
  let device_registry :=
    alter
      (fun reg_entry =>
         {| name := name reg_entry;
            speeds := match Py.int speed with
                      | Some spd => {[spd]} ∪ speeds reg_entry
                      | None => speeds reg_entry
                      end;
            last_seen := now_str |})
      stable_id device_registry in
  (device_registry, friendly_name).

(** [evt_type] of [handle_device_event] *)
Definition evt_type (action : string) : string :=
  if String.eqb action "add" then "Connected"
  else if String.eqb action "remove" then "Disconnected"
  else if String.eqb action "change" then "Changed"
  else "Changed".

(** "2. Add to Event Log": the entry, or the exception of
    [format_speed]. *)
Definition make_log_entry (action : string) (device : Core.USBDevice)
    (friendly_name now_str : string) : Py.result LogEntry :=
  match Utils.format_speed (Core.speed device) with
  | Py.Raise e => Py.Raise e
  | Py.Ok (formatted, _) =>
      let speed_display :=
        if String.eqb action "remove" then "-" else formatted in
      Py.Ok {| time := now_str;
               event := evt_type action;
               device_name := friendly_name;
               speed := speed_display;
               bus := Core.bus_num device +:+ "-" +:+ Core.sys_name device;
               version := Core.version device |}
  end.

(** The end of [handle_device_event], after the entry is logged:
    [refresh_devices] on the selection page, [update_view] on the
    monitoring page when the event is about the watched identity. *)
Definition dispatch_to_page (self : MainWindow)
    (enumeration : list Core.UdevDevice)
    (action : string) (device : Core.USBDevice)
  : MainWindow * Py.result unit :=
  if String.eqb (visible_child_name self) "selection" then
    if String.eqb action "add" || String.eqb action "remove" then
      ({| device_history := device_history self;
          event_log := event_log self;
          device_registry := device_registry self;
          device_manager :=
            fst (Core.list_devices (device_manager self) enumeration);
          visible_child_name := visible_child_name self;
          current_target_id := current_target_id self |}, Py.Ok tt)
    else (self, Py.Ok tt)
  else if String.eqb (visible_child_name self) "monitoring" then
    if bool_decide (Some (Core.stable_id device) = current_target_id self)
    then
      let connected :=
        if String.eqb action "add" || String.eqb action "bind"
           || String.eqb action "change" then Some true
        else if String.eqb action "remove" || String.eqb action "unbind"
        then Some false
        else None in
      match connected with
      | Some connected =>
          let '(history, r) :=
            update_view (device_history self) device connected in
          ({| device_history := history;
              event_log := event_log self;
              device_registry := device_registry self;
              device_manager := device_manager self;
              visible_child_name := visible_child_name self;
              current_target_id := current_target_id self |},
           match r with
           | Py.Ok _ => Py.Ok tt
           | Py.Raise e => Py.Raise e
           end)
      | None => (self, Py.Ok tt)
      end
    else (self, Py.Ok tt)
  else (self, Py.Ok tt).

(** [MainWindow.handle_device_event(action, device)] at the time
    [now_str], with [enumeration] the devices present on the bus: the
    window afterwards, and whether the method returned or raised.
    What was assigned before an exception stays assigned. *)
Definition handle_device_event (self : MainWindow)
    (now_str : string) (enumeration : list Core.UdevDevice)
    (action : string) (device : Core.USBDevice)
  : MainWindow * Py.result unit :=
  let '(registry, friendly_name) :=
    update_registry (device_registry self) (Core.stable_id device)
      (Core.get_friendly_name device) (Core.speed device) now_str in
  match make_log_entry action device friendly_name now_str with
  | Py.Raise e =>
      ({| device_history := device_history self;
          event_log := event_log self;
          device_registry := registry;
          device_manager := device_manager self;
          visible_child_name := visible_child_name self;
          current_target_id := current_target_id self |}, Py.Raise e)
  | Py.Ok log_entry =>
      dispatch_to_page
        {| device_history := device_history self;
           event_log := (event_log self ++ [log_entry])%list;
           device_registry := registry;
           device_manager := device_manager self;
           visible_child_name := visible_child_name self;
           current_target_id := current_target_id self |}
        enumeration action device
  end.

(** The window over a sequence of delivered events (each with its
    time and the bus enumeration at that time).  An exception leaves
    the handler of one event; the main loop goes on with the next. *)
Definition handle_all (self : MainWindow)
    (events : list (string * list Core.UdevDevice * string * Core.USBDevice))
  : MainWindow :=
  foldl
    (fun self '(now_str, enumeration, action, device) =>
       fst (handle_device_event self now_str enumeration action device))
    self events.

(** *** [USBVersionChart] *)

(** The keys of [USBVersionChart.nodes]. *)
Definition chart_nodes : list string :=
  ["480"; "5000"; "10000"; "20000"; "40000"; "80000"].

(** [USBVersionChart.set_active_speed]: every node is reset, and the
    result is the key of the node that is then made active, if any. *)
Definition set_active_speed (speed_mbps_str : string) : option string :=
  if negb (Py.nonempty speed_mbps_str) || String.eqb speed_mbps_str "N/A"
  then None
  else if bool_decide (speed_mbps_str ∈ chart_nodes) then Some speed_mbps_str
  else
    match Py.int speed_mbps_str with
    | Some val =>
        if val <? 5000 then Some "480"
        else if val <? 10000 then Some "5000"
        else if val <? 20000 then Some "10000"
        else if val <? 40000 then Some "20000"
        else if val <? 80000 then Some "40000"
        else Some "80000"
    | None => None
    end.

(** *** [HistoryWindow]: the rows of the connection log *)

(** [HistoryWindow.add_event_to_list]: the rows of [listbox_log], from
    top to bottom, each row standing for the entry it shows. *)
Definition add_event_to_list (listbox_log : list LogEntry) (entry : LogEntry)
    (at_top : bool) : list LogEntry :=
  if at_top then entry :: listbox_log else (listbox_log ++ [entry])%list.

(** The initial population of [HistoryWindow._create_log_view]. *)
Definition _create_log_view (event_log : list LogEntry) : list LogEntry :=
  foldl (fun listbox_log entry => add_event_to_list listbox_log entry false)
    [] (rev event_log).

(** *** [MainWindow]: lists, target and persistence *)

(** [MainWindow.refresh_devices]: the window afterwards and the rows
    of [list_left] and [list_right] (the devices of the [DeviceRow]s;
    an empty list shows a placeholder label). *)
Definition refresh_devices (self : MainWindow)
    (enumeration : list Core.UdevDevice)
  : MainWindow * (list Core.USBDevice * list Core.USBDevice) :=
  let '(manager, devices) :=
    Core.list_devices (device_manager self) enumeration in
  ({| device_history := device_history self;
      event_log := event_log self;
      device_registry := device_registry self;
      device_manager := manager;
      visible_child_name := visible_child_name self;
      current_target_id := current_target_id self |},
   (filter (fun dev => bool_decide (is_Some (device_history self !! Core.stable_id dev)))
      devices,
    devices)).

(** [MainWindow.on_monitor_clicked] with the device of the selected
    row, if a [DeviceRow] is selected: [set_target] and then the switch
    to the monitoring page, which an exception of [set_target]
    prevents. *)
Definition on_monitor_clicked (self : MainWindow)
    (target_row : option Core.USBDevice) : MainWindow * Py.result unit :=
  match target_row with
  | None => (self, Py.Ok tt)
  | Some device =>
      let '(history, r) := update_view (device_history self) device true in
      match r with
      | Py.Ok _ =>
          ({| device_history := history;
              event_log := event_log self;
              device_registry := device_registry self;
              device_manager := device_manager self;
              visible_child_name := "monitoring";
              current_target_id := Some (Core.stable_id device) |}, Py.Ok tt)
      | Py.Raise e =>
          ({| device_history := history;
              event_log := event_log self;
              device_registry := device_registry self;
              device_manager := device_manager self;
              visible_child_name := visible_child_name self;
              current_target_id := Some (Core.stable_id device) |}, Py.Raise e)
      end
  end.

(** [MonitoringPage.on_stop_clicked], which calls
    [MainWindow.stop_monitoring]. *)
Definition on_stop_clicked (self : MainWindow)
    (enumeration : list Core.UdevDevice) : MainWindow :=
  fst (refresh_devices
         {| device_history := device_history self;
            event_log := event_log self;
            device_registry := device_registry self;
            device_manager := device_manager self;
            visible_child_name := "selection";
            current_target_id := None |}
         enumeration).

(** An entry of the registry as it is written to the file: the set of
    speeds as a list. *)
Record SerializedEntry : Type := {
  s_name : string;
  s_speeds : list Z;
  s_last_seen : string
}.

(** The document of [history.json]; a top-level field can be absent. *)
Record HistoryDocument : Type := {
  doc_device_history : option (gmap string Z);
  doc_event_log : option (list LogEntry);
  doc_device_registry : option (gmap string SerializedEntry)
}.

(** The [data] that [MainWindow.save_history] hands to [json.dump]. *)
Definition save_history (self : MainWindow) : HistoryDocument :=
  {| doc_device_history := Some (device_history self);
     doc_event_log := Some (event_log self);
     doc_device_registry :=
       Some ((fun entry =>
                {| s_name := name entry;
                   s_speeds := elements (speeds entry);
                   s_last_seen := last_seen entry |})
             <$> device_registry self) |}.

(** [MainWindow.load_history]; [file] is what [json.load] returns, or
    [None] when the file does not exist.  The entries that are read
    are stored over the registry the window has. *)
Definition load_history (self : MainWindow) (file : option HistoryDocument)
  : MainWindow :=
  match file with
  | None => self
  | Some data =>
      {| device_history := default ∅ (doc_device_history data);
         event_log := default [] (doc_event_log data);
         device_registry :=
           ((fun entry =>
               {| name := s_name entry;
                  speeds := list_to_set (s_speeds entry);
                  last_seen := s_last_seen entry |})
            <$> default ∅ (doc_device_registry data))
           ∪ device_registry self;
         device_manager := device_manager self;
         visible_child_name := visible_child_name self;
         current_target_id := current_target_id self |}
  end.

End Ui.

(** ** Vocabulary of the statements *)

(** The identity an event resolves to: the [stable_id] of the snapshot
    that [_monitor_loop] hands to [on_device_event]. *)
Definition resolved_identity (self : Core.DeviceManager)
    (ev : Core.MonitorEvent) : string :=
  Core.stable_id (snd (snd (Core.monitor_event self ev))).



(** A delivered event is processed when the handler gets as far as the
    event log: rendering the speed is the only step before the log is
    written that can raise. *)
Definition processed (device : Core.USBDevice) : bool :=
  match Utils.format_speed (Core.speed device) with
  | Py.Ok _ => true
  | Py.Raise _ => false
  end.

(** A snapshot as [USBDevice.__init__] builds it from the few fields
    the examples need. *)
Definition snapshot (path port : string) (ser : option string)
    (vend mdl spd : string) : Core.USBDevice :=
  {| Core._forced_stable_id := None;
     Core.sys_path := path; Core.sys_name := port; Core.device_node := None;
     Core.vendor := vend; Core.model := mdl; Core.serial := ser;
     Core.vid := "----"; Core.pid := "----";
     Core.bus_num := "?"; Core.dev_num := "?"; Core.dev_path := "";
     Core.speed := spd; Core.version := "N/A"; Core.max_power := "N/A";
     Core.num_interfaces := "N/A" |}.

(** A raw device with the given path, port and properties, whose
    attribute files cannot be read. *)
Definition raw_device (path port : string) (props : list (string * string))
  : Core.UdevDevice :=
  {| Core.u_sys_path := path; Core.u_sys_name := port;
     Core.u_device_node := None;
     Core.u_properties := list_to_map props;
     Core.u_sysfs := ∅ |}.

Definition monitor_event_of (act : string) (d : Core.UdevDevice)
  : option Core.MonitorEvent :=
  Some {| Core.action := act; Core.device := d |}.

(** The snapshot [device] with another speed reading. *)
Definition with_speed (spd : string) (d : Core.USBDevice) : Core.USBDevice :=
  {| Core._forced_stable_id := Core._forced_stable_id d;
     Core.sys_path := Core.sys_path d; Core.sys_name := Core.sys_name d;
     Core.device_node := Core.device_node d; Core.vendor := Core.vendor d;
     Core.model := Core.model d; Core.serial := Core.serial d;
     Core.vid := Core.vid d; Core.pid := Core.pid d;
     Core.bus_num := Core.bus_num d; Core.dev_num := Core.dev_num d;
     Core.dev_path := Core.dev_path d; Core.speed := spd;
     Core.version := Core.version d; Core.max_power := Core.max_power d;
     Core.num_interfaces := Core.num_interfaces d |}.

(** A window at start-up, with nothing loaded, on the selection page. *)
Definition fresh_window : Ui.MainWindow :=
  {| Ui.device_history := ∅;
     Ui.event_log := [];
     Ui.device_registry := ∅;
     Ui.device_manager := Core.DeviceManager_init;
     Ui.visible_child_name := "selection";
     Ui.current_target_id := None |}.

(** The actions the monitor loop names. *)
Definition recognized_actions : list string :=
  ["add"; "remove"; "change"; "bind"; "unbind"].

(** The managers the program can be in: the fresh one, and what an
    enumeration or a monitor event makes of one. *)
Inductive reachable : Core.DeviceManager -> Prop :=
| reachable_init : reachable Core.DeviceManager_init
| reachable_list_devices (self : Core.DeviceManager)
    (enumeration : list Core.UdevDevice) :
    reachable self ->
    reachable (fst (Core.list_devices self enumeration))
| reachable_monitor_event (self : Core.DeviceManager)
    (ev : Core.MonitorEvent) :
    reachable self ->
    reachable (fst (Core.monitor_event self ev)).

(** What every entry of the two dictionaries looks like. *)
Definition manager_consistent (self : Core.DeviceManager) : Prop :=
  (forall id d, Core._device_cache self !! id = Some d -> Core.stable_id d = id) /\
  (forall path id, Core._syspath_map self !! path = Some id ->
     exists u, Core.u_sys_path u = path /\
               id = Core.stable_id (Core.USBDevice_init u)).

(** The speed history with the maximum of [id] raised to [n]: [n] is
    stored for an unseen identity and over a smaller maximum. *)
Definition raise_maximum (history : gmap string Z) (id : string) (n : Z)
  : gmap string Z :=
  match history !! id with
  | Some m => if m <? n then <[id := n]> history else history
  | None => <[id := n]> history
  end.

(** The speed history after the health check has seen the given
    readings of one device, one after the other. *)
Definition observe_all (history : gmap string Z) (device : Core.USBDevice)
    (readings : list string) : gmap string Z :=
  foldl
    (fun history reading =>
       Ui.history_cache (Ui.health_check history (with_speed reading device) ""))
    history readings.

(** The events of a run of the monitor, without the timeouts. *)
Definition polled_events (polls : list (option Core.MonitorEvent))
  : list Core.MonitorEvent :=
  omap id polls.

(** The speed tier of the chart for an [int]: the largest node that is
    not above it, and the lowest node below all of them. *)
Definition chart_tier (val : Z) : Z :=
  if val <? 5000 then 480
  else if val <? 10000 then 5000
  else if val <? 20000 then 10000
  else if val <? 40000 then 20000
  else if val <? 80000 then 40000
  else 80000.

(** ** Statements of the specification that the code does not satisfy *)



(** C8 as the specification words it: an action outside the
    recognised ones gets a kind of its own, different from the kind of
    every recognised action. *)
Definition unrecognized_action_gets_own_kind : Prop :=
  forall action known : string,
    action ∉ recognized_actions ->
    known ∈ recognized_actions ->
    Ui.evt_type action <> Ui.evt_type known.


(** * Properties *)

(** ** Sanity checks of the built-ins *)

Example strip_ex : Py.strip (" 5000" +:+ String "010" "") = "5000".
Proof. reflexivity. Qed.

Example int_ex :
  Py.int "5000" = Some 5000 /\ Py.int " -1_0 " = Some (-10) /\
  Py.int "N/A" = None /\ Py.int "1__0" = None /\ Py.int "_1" = None /\
  Py.int "1_" = None /\ Py.int "" = None /\ Py.int "+" = None /\
  Py.int "- 1" = None /\ Py.int "+007" = Some 7.
Proof. repeat split; reflexivity. Qed.

Example str_ex : Py.str 480 = "480" /\ Py.str 0 = "0" /\ Py.str (-5) = "-5".
Proof. repeat split; reflexivity. Qed.

Example format_speed_ex :
  Utils.format_speed "5000" = Py.Ok ("5 Gbps", "USB 3.2 Gen 1 (SuperSpeed)") /\
  Utils.format_speed "2500" = Py.Ok ("2.5 Gbps", "") /\
  Utils.format_speed "1234565" = Py.Ok ("1234.57 Gbps", "") /\
  Utils.format_speed "100" = Py.Ok ("100 Mbps", "") /\
  Utils.format_speed "-5" = Py.Ok ("-5 Mbps", "") /\
  Utils.format_speed "" = Py.Ok ("Unknown", "").
Proof. repeat split; vm_compute; reflexivity. Qed.

(** A reading of 401 digits is an [int] whose quotient by 1000 is
    beyond the range of a float. *)
Example format_speed_overflow_ex :
  Utils.format_speed (String "1" (string_of_list_ascii (repeat "0"%char 400)))
  = Py.Raise Py.OverflowError.
Proof. vm_compute. reflexivity. Qed.

(** A device with serial "XYZ" and speed 5000 is added and later
    removed, the removal being unable to read anything: both events
    resolve to "SERIAL:XYZ", the registry records the speed 5000, and
    the log holds "Connected" then "Disconnected". *)
Example end_to_end_ex :
  let polls :=
    [Some {| Core.action := "add";
             Core.device :=
               {| Core.u_sys_path := "/sys/devices/usb1/1-2";
                  Core.u_sys_name := "1-2";
                  Core.u_device_node := None;
                  Core.u_properties :=
                    list_to_map [("ID_SERIAL_SHORT", "XYZ"); ("ID_VENDOR", "Acme");
                                 ("ID_MODEL", "Widget")];
                  Core.u_sysfs := list_to_map [("speed", "5000" +:+ String "010" "")] |} |};
     None;
     monitor_event_of "remove" (raw_device "/sys/devices/usb1/1-2" "1-2" [])] in
  let calls := snd (Core._monitor_loop Core.DeviceManager_init polls) in
  let window :=
    Ui.handle_all fresh_window
      (map (fun call => ("10:00:00", [], fst call, snd call)) calls) in
  map (fun call => Core.stable_id (snd call)) calls = ["SERIAL:XYZ"; "SERIAL:XYZ"] /\
  Ui.speeds <$> Ui.device_registry window !! "SERIAL:XYZ" = Some {[5000]} /\
  map Ui.event (Ui.event_log window) = ["Connected"; "Disconnected"] /\
  map Ui.device_name (Ui.event_log window) = ["Acme Widget"; "Acme Widget"] /\
  map Ui.speed (Ui.event_log window) = ["5 Gbps"; "-"].
Proof. vm_compute. repeat split. Qed.

(** ** Identity *)

Lemma truthy_some (o : option string) :
  Py.truthy o = true -> exists s, o = Some s /\ s <> "".
Proof.
  destruct o as [[|c s]|]; simpl; try discriminate.
  intros _. exists (String c s). split; [reflexivity | discriminate].
Qed.

Lemma truthy_nonempty (s : string) : s <> "" -> Py.truthy (Some s) = true.
Proof. destruct s; [congruence | reflexivity]. Qed.

Lemma stable_id_unforced (d : Core.USBDevice) :
  Core._forced_stable_id d = None ->
  Core.stable_id d =
    if Py.truthy (Core.serial d)
    then "SERIAL:" +:+ default "" (Core.serial d)
    else "PATH:" +:+ Core.vid d +:+ ":" +:+ Core.pid d +:+ ":" +:+ Core.sys_name d.
Proof. intros H. unfold Core.stable_id. rewrite H. reflexivity. Qed.

(** The identity of a fresh snapshot is never the empty string. *)
Lemma stable_id_init_nonempty (u : Core.UdevDevice) :
  Py.nonempty (Core.stable_id (Core.USBDevice_init u)) = true.
Proof.
  rewrite stable_id_unforced by reflexivity.
  destruct (Py.truthy _); reflexivity.
Qed.

Lemma stable_id_forced (known_id : string) (d : Core.USBDevice) :
  Py.nonempty known_id = true ->
  Core.stable_id (Core.set_forced_stable_id known_id d) = known_id.
Proof. intros H. unfold Core.stable_id. simpl. rewrite H. reflexivity. Qed.

(** C1: without a forced identity, a snapshot with a non-empty serial
    is identified by "SERIAL:" followed by the serial, whatever its
    vendor id, product id and port are; a snapshot without a serial, or
    with an empty one, by "PATH:" followed by vendor id, product id and
    port, separated by colons.  Two snapshots that agree on these four
    fields have the same identity. *)
Theorem stable_id_serial_first (d : Core.USBDevice) :
  Core._forced_stable_id d = None ->
  (forall s, Core.serial d = Some s -> s <> "" ->
     Core.stable_id d = "SERIAL:" +:+ s /\
     forall d', Core._forced_stable_id d' = None -> Core.serial d' = Some s ->
                Core.stable_id d' = Core.stable_id d) /\
  (Core.serial d = None \/ Core.serial d = Some "" ->
     Core.stable_id d =
       "PATH:" +:+ Core.vid d +:+ ":" +:+ Core.pid d +:+ ":" +:+ Core.sys_name d) /\
  (forall d', Core._forced_stable_id d' = None ->
     Core.serial d' = Core.serial d -> Core.vid d' = Core.vid d ->
     Core.pid d' = Core.pid d -> Core.sys_name d' = Core.sys_name d ->
     Core.stable_id d' = Core.stable_id d).
Proof.
  intros Hf. split; [| split].
  - intros s Hs Hne. split.
    + rewrite stable_id_unforced by assumption.
      rewrite Hs, (truthy_nonempty s) by assumption. reflexivity.
    + intros d' Hf' Hs'. rewrite !stable_id_unforced by assumption.
      rewrite Hs, Hs', (truthy_nonempty s) by assumption. reflexivity.
  - intros [Hs | Hs]; rewrite stable_id_unforced by assumption;
      rewrite Hs; reflexivity.
  - intros d' Hf' Hs Hv Hp Hn. rewrite !stable_id_unforced by assumption.
    rewrite Hs, Hv, Hp, Hn. reflexivity.
Qed.

Lemma stable_id_serial_first_witness :
  Core.stable_id (snapshot "/sys/devices/usb1/1-2" "1-2" (Some "XYZ") "Acme" "Widget" "5000")
    = "SERIAL:XYZ" /\
  Core.stable_id (snapshot "/sys/devices/usb1/1-2" "1-2" None "Acme" "Widget" "5000")
    = "PATH:----:----:1-2".
Proof.
  split.
  - destruct (stable_id_serial_first
                (snapshot "/sys/devices/usb1/1-2" "1-2" (Some "XYZ") "Acme" "Widget" "5000")
                eq_refl) as (Hserial & _ & _).
    destruct (Hserial "XYZ" eq_refl) as [Hid _]; [discriminate | exact Hid].
  - destruct (stable_id_serial_first
                (snapshot "/sys/devices/usb1/1-2" "1-2" None "Acme" "Widget" "5000")
                eq_refl) as (_ & Hpath & _).
    apply Hpath. left. reflexivity.
Defined.

(** ** The path map under one monitor event *)

(** The path map after one event, in closed form. *)
Lemma monitor_event_syspath_map (self : Core.DeviceManager)
    (ev : Core.MonitorEvent) :
  Core._syspath_map (fst (Core.monitor_event self ev)) =
    if String.eqb (Core.action ev) "add" then
      <[Core.u_sys_path (Core.device ev) :=
          Core.stable_id (Core.USBDevice_init (Core.device ev))]>
        (Core._syspath_map self)
    else if String.eqb (Core.action ev) "remove" then
      delete (Core.u_sys_path (Core.device ev)) (Core._syspath_map self)
    else Core._syspath_map self.
Proof.
  unfold Core.monitor_event.
  destruct (String.eqb (Core.action ev) "add"); [reflexivity |].
  destruct (String.eqb (Core.action ev) "remove") eqn:Hrm; simpl.
  - destruct (Core._syspath_map self !! Core.u_sys_path (Core.device ev))
      eqn:Hin; simpl; [reflexivity |].
    symmetry. apply delete_id. exact Hin.
  - destruct (String.eqb (Core.action ev) "unbind"); [| reflexivity].
    destruct (Core._syspath_map self !! Core.u_sys_path (Core.device ev));
      reflexivity.
Qed.

(** The action is handed to [on_device_event] as it came. *)
Lemma monitor_event_action (self : Core.DeviceManager)
    (ev : Core.MonitorEvent) :
  fst (snd (Core.monitor_event self ev)) = Core.action ev.
Proof.
  unfold Core.monitor_event.
  destruct (String.eqb (Core.action ev) "add"); [reflexivity |].
  destruct (String.eqb (Core.action ev) "remove" || String.eqb (Core.action ev) "unbind");
    [| reflexivity].
  destruct (Core._syspath_map self !! _); reflexivity.
Qed.

(** The snapshot of a removal or an unbind for a known path carries
    the identity stored for the path. *)
Lemma monitor_event_known (self : Core.DeviceManager)
    (ev : Core.MonitorEvent) (known_id : string) :
  Core.action ev = "remove" \/ Core.action ev = "unbind" ->
  Core._syspath_map self !! Core.u_sys_path (Core.device ev) = Some known_id ->
  snd (snd (Core.monitor_event self ev)) =
    Core.set_forced_stable_id known_id (Core.USBDevice_init (Core.device ev)).
Proof.
  intros Hact Hin. unfold Core.monitor_event.
  destruct Hact as [-> | ->]; simpl; rewrite Hin; reflexivity.
Qed.


(** C3: an add event stores path -> identity in the path map; an
    unbind event leaves the whole map, so also the entry of its path,
    as it is; a remove event deletes the entry of its path; an event of
    any other kind than remove deletes no entry. *)
Theorem syspath_map_lifecycle (self : Core.DeviceManager)
    (ev : Core.MonitorEvent) :
  (Core.action ev = "add" ->
     Core._syspath_map (fst (Core.monitor_event self ev)) =
       <[Core.u_sys_path (Core.device ev) :=
           Core.stable_id (Core.USBDevice_init (Core.device ev))]>
         (Core._syspath_map self)) /\
  (Core.action ev = "unbind" ->
     Core._syspath_map (fst (Core.monitor_event self ev)) = Core._syspath_map self) /\
  (Core.action ev = "remove" ->
     Core._syspath_map (fst (Core.monitor_event self ev)) =
       delete (Core.u_sys_path (Core.device ev)) (Core._syspath_map self)) /\
  (Core.action ev <> "remove" ->
     forall path, is_Some (Core._syspath_map self !! path) ->
       is_Some (Core._syspath_map (fst (Core.monitor_event self ev)) !! path)).
Proof.
  rewrite monitor_event_syspath_map. repeat split.
  - intros ->. reflexivity.
  - intros ->. reflexivity.
  - intros ->. reflexivity.
  - intros Hne path Hin.
    destruct (String.eqb (Core.action ev) "add").
    + apply lookup_insert_is_Some'. right. exact Hin.
    + destruct (String.eqb_spec (Core.action ev) "remove"); [contradiction | exact Hin].
Qed.

Lemma syspath_map_lifecycle_witness :
  Core._syspath_map
    (fst (Core.monitor_event Core.DeviceManager_init
            {| Core.action := "add";
               Core.device := raw_device "/sys/devices/usb1/1-2" "1-2"
                                [("ID_SERIAL_SHORT", "XYZ")] |}))
  = <["/sys/devices/usb1/1-2" := "SERIAL:XYZ"]> ∅
  /\
  Core._syspath_map
    (fst (Core.monitor_event
            {| Core._device_cache := ∅;
               Core._syspath_map := <["/sys/devices/usb1/1-2" := "SERIAL:XYZ"]> ∅ |}
            {| Core.action := "unbind";
               Core.device := raw_device "/sys/devices/usb1/1-2" "1-2" [] |}))
  = <["/sys/devices/usb1/1-2" := "SERIAL:XYZ"]> ∅
  /\
  Core._syspath_map
    (fst (Core.monitor_event
            {| Core._device_cache := ∅;
               Core._syspath_map := <["/sys/devices/usb1/1-2" := "SERIAL:XYZ"]> ∅ |}
            {| Core.action := "remove";
               Core.device := raw_device "/sys/devices/usb1/1-2" "1-2" [] |}))
  = delete "/sys/devices/usb1/1-2" (<["/sys/devices/usb1/1-2" := "SERIAL:XYZ"]> ∅)
  /\
  is_Some
    (Core._syspath_map
       (fst (Core.monitor_event
               {| Core._device_cache := ∅;
                  Core._syspath_map := <["/sys/devices/usb1/1-2" := "SERIAL:XYZ"]> ∅ |}
               {| Core.action := "change";
                  Core.device := raw_device "/sys/devices/usb1/1-2" "1-2" [] |}))
       !! "/sys/devices/usb1/1-2").
Proof.
  split; [| split; [| split]].
  - destruct (syspath_map_lifecycle Core.DeviceManager_init
                {| Core.action := "add";
                   Core.device := raw_device "/sys/devices/usb1/1-2" "1-2"
                                    [("ID_SERIAL_SHORT", "XYZ")] |})
      as (Hadd & _).
    apply Hadd. reflexivity.
  - destruct (syspath_map_lifecycle
                {| Core._device_cache := ∅;
                   Core._syspath_map := <["/sys/devices/usb1/1-2" := "SERIAL:XYZ"]> ∅ |}
                {| Core.action := "unbind";
                   Core.device := raw_device "/sys/devices/usb1/1-2" "1-2" [] |})
      as (_ & Hunbind & _).
    apply Hunbind. reflexivity.
  - destruct (syspath_map_lifecycle
                {| Core._device_cache := ∅;
                   Core._syspath_map := <["/sys/devices/usb1/1-2" := "SERIAL:XYZ"]> ∅ |}
                {| Core.action := "remove";
                   Core.device := raw_device "/sys/devices/usb1/1-2" "1-2" [] |})
      as (_ & _ & Hremove & _).
    apply Hremove. reflexivity.
  - destruct (syspath_map_lifecycle
                {| Core._device_cache := ∅;
                   Core._syspath_map := <["/sys/devices/usb1/1-2" := "SERIAL:XYZ"]> ∅ |}
                {| Core.action := "change";
                   Core.device := raw_device "/sys/devices/usb1/1-2" "1-2" [] |})
      as (_ & _ & _ & Hother).
    apply Hother.
    + discriminate.
    + exists "SERIAL:XYZ". reflexivity.
Defined.

(** ** Runs of the monitor loop *)


(** The calls made so far do not influence the rest of the run. *)
Lemma monitor_loop_acc (polls : list (option Core.MonitorEvent)) :
  forall (self : Core.DeviceManager) (calls : list (string * Core.USBDevice)),
    foldl
      (fun '(self, calls) poll =>
         match poll with
         | Some ev =>
             let '(self, call) := Core.monitor_event self ev in
             (self, (calls ++ [call])%list)
         | None => (self, calls)
         end)
      (self, calls) polls
    = (fst (Core._monitor_loop self polls),
       (calls ++ snd (Core._monitor_loop self polls))%list).
Proof.
  unfold Core._monitor_loop.
  induction polls as [| poll polls IH]; intros self calls; simpl.
  - rewrite app_nil_r. reflexivity.
  - destruct poll as [ev |].
    + destruct (Core.monitor_event self ev) as [self' call]. simpl.
      rewrite (IH self' (calls ++ [call])%list), (IH self' [call]).
      simpl. rewrite <- app_assoc. reflexivity.
    + apply IH.
Qed.

Lemma monitor_loop_cons (self : Core.DeviceManager)
    (poll : option Core.MonitorEvent) (polls : list (option Core.MonitorEvent)) :
  Core._monitor_loop self (poll :: polls) =
    match poll with
    | Some ev =>
        (fst (Core._monitor_loop (fst (Core.monitor_event self ev)) polls),
         snd (Core.monitor_event self ev)
           :: snd (Core._monitor_loop (fst (Core.monitor_event self ev)) polls))
    | None => Core._monitor_loop self polls
    end.
Proof.
  unfold Core._monitor_loop at 1. simpl. destruct poll as [ev |].
  - destruct (Core.monitor_event self ev) as [self' call]. simpl.
    apply monitor_loop_acc.
  - reflexivity.
Qed.






(** ** Enumeration *)

Lemma list_devices_snoc (self : Core.DeviceManager)
    (enumeration : list Core.UdevDevice) (u : Core.UdevDevice) :
  Core.list_devices self (enumeration ++ [u]) =
    ({| Core._device_cache :=
          <[Core.stable_id (Core.USBDevice_init u) := Core.USBDevice_init u]>
            (Core._device_cache (fst (Core.list_devices self enumeration)));
        Core._syspath_map :=
          <[Core.u_sys_path u := Core.stable_id (Core.USBDevice_init u)]>
            (Core._syspath_map (fst (Core.list_devices self enumeration))) |},
     (snd (Core.list_devices self enumeration) ++ [Core.USBDevice_init u])%list).
Proof.
  unfold Core.list_devices. rewrite foldl_snoc.
  destruct (foldl _ _ enumeration) as [self' devices]. reflexivity.
Qed.




(** ** Speed history *)

Lemma stable_id_with_speed (spd : string) (d : Core.USBDevice) :
  Core.stable_id (with_speed spd d) = Core.stable_id d.
Proof. reflexivity. Qed.

(** The health check on a numeric reading, in closed form. *)
Lemma health_check_numeric (history : gmap string Z) (device : Core.USBDevice)
    (speed_str : string) (n : Z) :
  Py.int (Core.speed device) = Some n ->
  Ui.history_cache (Ui.health_check history device speed_str) =
    match history !! Core.stable_id device with
    | Some m => if m <? n then <[Core.stable_id device := n]> history else history
    | None => <[Core.stable_id device := n]> history
    end /\
  Ui.saved (Ui.health_check history device speed_str) =
    match history !! Core.stable_id device with
    | Some m => m <? n
    | None => true
    end /\
  Ui.is_downgraded (Ui.health_check history device speed_str) =
    match history !! Core.stable_id device with
    | Some m => n <? m
    | None => false
    end /\
  Ui.known_max (Ui.health_check history device speed_str) =
    match history !! Core.stable_id device with
    | Some m => Z.max m n
    | None => n
    end.
Proof.
  intros Hint. unfold Ui.health_check. rewrite Hint.
  destruct (history !! Core.stable_id device) as [m |] eqn:Hold.
  - destruct (Z.ltb_spec m n) as [Hlt | Hge].
    + rewrite lookup_insert_eq, Z.ltb_irrefl. cbn.
      repeat split. destruct (Z.ltb_spec n m); [lia | reflexivity]. lia.
    + rewrite Hold. destruct (Z.ltb_spec n m) as [Hlt | Hge'].
      * destruct (Utils.format_speed (Py.str m)) as [[max_speed_str moniker] | e];
          cbn; repeat split; lia.
      * cbn. repeat split. lia.
  - rewrite lookup_insert_eq, Z.ltb_irrefl. cbn. repeat split.
Qed.

(** C4: on a numeric reading [n] for an identity, the health check
    stores [n] as the maximum of an unseen identity and signals a new
    maximum (the history is saved) without a downgrade; for a stored
    maximum [m], [n > m] replaces the maximum and signals a new
    maximum, [n < m] signals a downgrade, keeps the maximum and reports
    it as [known_max], [n = m] signals nothing; the stored maximum
    never decreases.  Readings 100, 50, 200 for an unseen identity give
    a downgrade with maximum 100 at the second and a new maximum 200 at
    the third. *)
Theorem health_check_tracks_maximum (history : gmap string Z)
    (device : Core.USBDevice) (speed_str : string) :
  (forall n, Py.int (Core.speed device) = Some n ->
     (history !! Core.stable_id device = None ->
        Ui.history_cache (Ui.health_check history device speed_str)
          = <[Core.stable_id device := n]> history /\
        Ui.saved (Ui.health_check history device speed_str) = true /\
        Ui.is_downgraded (Ui.health_check history device speed_str) = false) /\
     (forall m, history !! Core.stable_id device = Some m ->
        (m < n ->
           Ui.history_cache (Ui.health_check history device speed_str)
             = <[Core.stable_id device := n]> history /\
           Ui.saved (Ui.health_check history device speed_str) = true /\
           Ui.is_downgraded (Ui.health_check history device speed_str) = false) /\
        (n < m ->
           Ui.is_downgraded (Ui.health_check history device speed_str) = true /\
           Ui.history_cache (Ui.health_check history device speed_str) = history /\
           Ui.saved (Ui.health_check history device speed_str) = false /\
           Ui.known_max (Ui.health_check history device speed_str) = m) /\
        (n = m ->
           Ui.history_cache (Ui.health_check history device speed_str) = history /\
           Ui.saved (Ui.health_check history device speed_str) = false /\
           Ui.is_downgraded (Ui.health_check history device speed_str) = false) /\
        exists m',
          Ui.history_cache (Ui.health_check history device speed_str)
            !! Core.stable_id device = Some m' /\ m <= m')) /\
  (history !! Core.stable_id device = None ->
     let first := Ui.health_check history (with_speed "100" device) speed_str in
     let second :=
       Ui.health_check (Ui.history_cache first) (with_speed "50" device) speed_str in
     let third :=
       Ui.health_check (Ui.history_cache second) (with_speed "200" device) speed_str in
     Ui.saved first = true /\ Ui.is_downgraded first = false /\
     Ui.is_downgraded second = true /\ Ui.saved second = false /\
     Ui.known_max second = 100 /\
     Ui.history_cache second !! Core.stable_id device = Some 100 /\
     Ui.saved third = true /\ Ui.is_downgraded third = false /\
     Ui.history_cache third !! Core.stable_id device = Some 200).
Proof.
  split.
  - intros n Hint.
    destruct (health_check_numeric history device speed_str n Hint)
      as (Hcache & Hsaved & Hdown & Hmax).
    split.
    + intros Hnew. rewrite Hnew in *. auto.
    + intros m Hold. rewrite Hold in *. repeat split.
      * rewrite Hcache. destruct (Z.ltb_spec m n); [reflexivity | lia].
      * rewrite Hsaved. apply Z.ltb_lt. assumption.
      * rewrite Hdown. apply Z.ltb_ge. lia.
      * rewrite Hdown. apply Z.ltb_lt. assumption.
      * rewrite Hcache. destruct (Z.ltb_spec m n); [lia | reflexivity].
      * rewrite Hsaved. apply Z.ltb_ge. lia.
      * rewrite Hmax. lia.
      * rewrite Hcache. destruct (Z.ltb_spec m n); [lia | reflexivity].
      * rewrite Hsaved. apply Z.ltb_ge. lia.
      * rewrite Hdown. apply Z.ltb_ge. lia.
      * rewrite Hcache. destruct (Z.ltb_spec m n).
        -- exists n. rewrite lookup_insert_eq. split; [reflexivity | lia].
        -- exists m. split; [assumption | lia].
  - intros Hnew. cbv zeta.
    destruct (health_check_numeric history (with_speed "100" device) speed_str 100 eq_refl)
      as (Hc1 & Hs1 & Hd1 & _).
    rewrite stable_id_with_speed, Hnew in Hc1, Hs1, Hd1.
    rewrite Hc1, Hs1, Hd1.
    destruct (health_check_numeric (<[Core.stable_id device := 100]> history)
                (with_speed "50" device) speed_str 50 eq_refl)
      as (Hc2 & Hs2 & Hd2 & Hm2).
    rewrite stable_id_with_speed, lookup_insert_eq in Hc2, Hs2, Hd2, Hm2.
    change (100 <? 50) with false in Hc2, Hs2.
    change (50 <? 100) with true in Hd2.
    change (Z.max 100 50) with 100 in Hm2.
    rewrite Hc2, Hs2, Hd2, Hm2.
    destruct (health_check_numeric (<[Core.stable_id device := 100]> history)
                (with_speed "200" device) speed_str 200 eq_refl)
      as (Hc3 & Hs3 & Hd3 & _).
    rewrite stable_id_with_speed, lookup_insert_eq in Hc3, Hs3, Hd3.
    change (100 <? 200) with true in Hc3, Hs3.
    change (200 <? 100) with false in Hd3.
    rewrite Hc3, Hs3, Hd3, !lookup_insert_eq.
    repeat split.
Qed.

Lemma health_check_tracks_maximum_witness :
  Ui.is_downgraded
    (Ui.health_check (<["SERIAL:XYZ" := 5000]> ∅)
       (snapshot "/sys/devices/usb1/1-2" "1-2" (Some "XYZ") "Acme" "Widget" "480")
       "480 Mbps") = true
  /\
  Ui.known_max
    (Ui.health_check (<["SERIAL:XYZ" := 5000]> ∅)
       (snapshot "/sys/devices/usb1/1-2" "1-2" (Some "XYZ") "Acme" "Widget" "480")
       "480 Mbps") = 5000
  /\
  Ui.saved
    (Ui.health_check ∅
       (snapshot "/sys/devices/usb1/1-2" "1-2" (Some "XYZ") "Acme" "Widget" "480")
       "480 Mbps") = true.
Proof.
  destruct (health_check_tracks_maximum (<["SERIAL:XYZ" := 5000]> ∅)
              (snapshot "/sys/devices/usb1/1-2" "1-2" (Some "XYZ") "Acme" "Widget" "480")
              "480 Mbps") as [Hseen _].
  destruct (Hseen 480 eq_refl) as [_ Hstored].
  destruct (Hstored 5000 eq_refl) as (_ & Hlower & _).
  destruct (Hlower eq_refl) as (Hdown & _ & _ & Hmax).
  destruct (health_check_tracks_maximum ∅
              (snapshot "/sys/devices/usb1/1-2" "1-2" (Some "XYZ") "Acme" "Widget" "480")
              "480 Mbps") as [Hunseen _].
  destruct (Hunseen 480 eq_refl) as [Hnew _].
  destruct (Hnew eq_refl) as (_ & Hsaved & _).
  split; [exact Hdown | split; [exact Hmax | exact Hsaved]].
Defined.

(** ** Readings that are not numbers *)


Lemma format_speed_non_numeric (speed : string) :
  Py.int speed = None ->
  Utils.format_speed speed =
    Py.Ok (if negb (Py.nonempty speed) || String.eqb speed "N/A"
           then "Unknown" else speed, "").
Proof.
  intros Hint. unfold Utils.format_speed. rewrite Hint.
  destruct (negb (Py.nonempty speed) || String.eqb speed "N/A"); reflexivity.
Qed.

Lemma make_log_entry_formats (action : string) (device : Core.USBDevice)
    (friendly_name now_str formatted label : string) :
  Utils.format_speed (Core.speed device) = Py.Ok (formatted, label) ->
  Ui.make_log_entry action device friendly_name now_str =
    Py.Ok {| Ui.time := now_str;
             Ui.event := Ui.evt_type action;
             Ui.device_name := friendly_name;
             Ui.speed := if String.eqb action "remove" then "-" else formatted;
             Ui.bus := Core.bus_num device +:+ "-" +:+ Core.sys_name device;
             Ui.version := Core.version device |}.
Proof. intros Hfmt. unfold Ui.make_log_entry. rewrite Hfmt. reflexivity. Qed.




(** ** Registry *)

Lemma update_registry_same (registry : gmap string Ui.RegistryEntry)
    (id candidate speed now_str : string) (entry : Ui.RegistryEntry) :
  registry !! id = Some entry ->
  fst (Ui.update_registry registry id candidate speed now_str) !! id =
    Some {| Ui.name := if Ui.is_unknown_name candidate
                       then Ui.name entry else candidate;
            Ui.speeds := match Py.int speed with
                         | Some spd => {[spd]} ∪ Ui.speeds entry
                         | None => Ui.speeds entry
                         end;
            Ui.last_seen := now_str |}.
Proof.
  intros Hin. unfold Ui.update_registry. rewrite Hin. cbn [fst].
  rewrite lookup_alter_eq.
  destruct (Ui.is_unknown_name candidate); cbn [negb].
  - rewrite Hin. reflexivity.
  - rewrite lookup_insert_eq. reflexivity.
Qed.

Lemma update_registry_new (registry : gmap string Ui.RegistryEntry)
    (id candidate speed now_str : string) :
  registry !! id = None ->
  fst (Ui.update_registry registry id candidate speed now_str) !! id =
    Some {| Ui.name := candidate;
            Ui.speeds := match Py.int speed with
                         | Some spd => {[spd]} ∪ ∅
                         | None => ∅
                         end;
            Ui.last_seen := now_str |}.
Proof.
  intros Hout. unfold Ui.update_registry. rewrite Hout. cbn [fst].
  rewrite lookup_alter_eq, lookup_insert_eq. reflexivity.
Qed.

Lemma update_registry_other (registry : gmap string Ui.RegistryEntry)
    (id candidate speed now_str other : string) :
  other <> id ->
  fst (Ui.update_registry registry id candidate speed now_str) !! other
  = registry !! other.
Proof.
  intros Hne. unfold Ui.update_registry. cbn [fst].
  rewrite lookup_alter_ne by congruence.
  destruct (registry !! id) as [entry |].
  - destruct (negb (Ui.is_unknown_name candidate)); [| reflexivity].
    apply lookup_insert_ne. congruence.
  - apply lookup_insert_ne. congruence.
Qed.

(** What the page at the end of the handler does leaves the log and
    the registry alone. *)
Lemma dispatch_to_page_keeps (self : Ui.MainWindow)
    (enumeration : list Core.UdevDevice) (action : string)
    (device : Core.USBDevice) :
  Ui.event_log (fst (Ui.dispatch_to_page self enumeration action device))
    = Ui.event_log self /\
  Ui.device_registry (fst (Ui.dispatch_to_page self enumeration action device))
    = Ui.device_registry self.
Proof.
  unfold Ui.dispatch_to_page.
  destruct (String.eqb (Ui.visible_child_name self) "selection").
  - destruct (String.eqb action "add" || String.eqb action "remove"); split; reflexivity.
  - destruct (String.eqb (Ui.visible_child_name self) "monitoring"); [| split; reflexivity].
    destruct (bool_decide _); [| split; reflexivity].
    destruct (String.eqb action "add" || String.eqb action "bind"
              || String.eqb action "change").
    + destruct (Ui.update_view _ _ _) as [history r]. split; reflexivity.
    + destruct (String.eqb action "remove" || String.eqb action "unbind");
        [| split; reflexivity].
      destruct (Ui.update_view _ _ _) as [history r]. split; reflexivity.
Qed.

Lemma handle_device_event_registry (self : Ui.MainWindow) (now_str : string)
    (enumeration : list Core.UdevDevice) (action : string)
    (device : Core.USBDevice) :
  Ui.device_registry
    (fst (Ui.handle_device_event self now_str enumeration action device))
  = fst (Ui.update_registry (Ui.device_registry self) (Core.stable_id device)
           (Core.get_friendly_name device) (Core.speed device) now_str).
Proof.
  unfold Ui.handle_device_event.
  destruct (Ui.update_registry _ _ _ _ _) as [registry friendly_name].
  destruct (Ui.make_log_entry _ _ _ _) as [log_entry | e]; [| reflexivity].
  rewrite (proj2 (dispatch_to_page_keeps _ _ _ _)). reflexivity.
Qed.

Lemma handle_device_event_log (self : Ui.MainWindow) (now_str : string)
    (enumeration : list Core.UdevDevice) (action : string)
    (device : Core.USBDevice) :
  Ui.event_log
    (fst (Ui.handle_device_event self now_str enumeration action device))
  = match Ui.make_log_entry action device
            (snd (Ui.update_registry (Ui.device_registry self)
                    (Core.stable_id device) (Core.get_friendly_name device)
                    (Core.speed device) now_str)) now_str with
    | Py.Ok log_entry => (Ui.event_log self ++ [log_entry])%list
    | Py.Raise _ => Ui.event_log self
    end.
Proof.
  unfold Ui.handle_device_event.
  destruct (Ui.update_registry _ _ _ _ _) as [registry friendly_name].
  cbn [snd].
  destruct (Ui.make_log_entry _ _ _ _) as [log_entry | e]; [| reflexivity].
  rewrite (proj1 (dispatch_to_page_keeps _ _ _ _)). reflexivity.
Qed.

(** One update keeps a resolved name resolved. *)
Lemma update_registry_keeps_resolved (registry : gmap string Ui.RegistryEntry)
    (id candidate speed now_str other : string) (entry : Ui.RegistryEntry) :
  registry !! other = Some entry ->
  Ui.is_unknown_name (Ui.name entry) = false ->
  exists entry',
    fst (Ui.update_registry registry id candidate speed now_str) !! other
      = Some entry' /\
    Ui.is_unknown_name (Ui.name entry') = false /\
    (other <> id \/ Ui.is_unknown_name candidate = true ->
     Ui.name entry' = Ui.name entry).
Proof.
  intros Hin Hres. destruct (decide (other = id)) as [-> | Hne].
  - rewrite (update_registry_same _ _ _ _ _ _ Hin). eexists. split; [reflexivity |].
    cbn [Ui.name]. destruct (Ui.is_unknown_name candidate) eqn:Hc.
    + split; [exact Hres | reflexivity].
    + split; [exact Hc |]. intros [Hid | Hf]; [contradiction | discriminate].
  - rewrite update_registry_other by exact Hne. exists entry.
    split; [exact Hin |]. split; [exact Hres | reflexivity].
Qed.

(** C5: once the registry holds a name for an identity that is not a
    placeholder (it contains neither "----:----" nor "Unknown"), an
    update of the registry leaves a name that is not a placeholder, and
    leaves the very name when the candidate is a placeholder; this
    stays so over every sequence of handled events.  In particular the
    candidate "Acme Widget" followed by the candidate "Unknown Unknown"
    for "d1" leaves the name "Acme Widget". *)
Theorem registry_name_never_downgrades :
  (forall (registry : gmap string Ui.RegistryEntry)
          (id candidate speed now_str : string) (entry : Ui.RegistryEntry),
     registry !! id = Some entry ->
     Ui.is_unknown_name (Ui.name entry) = false ->
     exists entry',
       fst (Ui.update_registry registry id candidate speed now_str) !! id
         = Some entry' /\
       Ui.is_unknown_name (Ui.name entry') = false /\
       (Ui.is_unknown_name candidate = true -> Ui.name entry' = Ui.name entry)) /\
  (forall (events : list (string * list Core.UdevDevice * string * Core.USBDevice))
          (self : Ui.MainWindow) (id : string) (entry : Ui.RegistryEntry),
     Ui.device_registry self !! id = Some entry ->
     Ui.is_unknown_name (Ui.name entry) = false ->
     exists entry',
       Ui.device_registry (Ui.handle_all self events) !! id = Some entry' /\
       Ui.is_unknown_name (Ui.name entry') = false) /\
  (forall speed1 now1 speed2 now2 : string,
     Ui.name <$>
       fst (Ui.update_registry
              (fst (Ui.update_registry ∅ "d1" "Acme Widget" speed1 now1))
              "d1" "Unknown Unknown" speed2 now2) !! "d1"
     = Some "Acme Widget").
Proof.
  split; [| split].
  - intros registry id candidate speed now_str entry Hin Hres.
    destruct (update_registry_keeps_resolved registry id candidate speed now_str
                id entry Hin Hres) as (entry' & Hin' & Hres' & Hsame).
    exists entry'. split; [exact Hin' |]. split; [exact Hres' |].
    intros Hc. apply Hsame. right. exact Hc.
  - induction events as [| [[[now_str enumeration] action] device] events IH];
      intros self id entry Hin Hres.
    + exists entry. split; assumption.
    + unfold Ui.handle_all. cbn [foldl fst]. fold (Ui.handle_all
        (fst (Ui.handle_device_event self now_str enumeration action device)) events).
      destruct (update_registry_keeps_resolved (Ui.device_registry self)
                  (Core.stable_id device) (Core.get_friendly_name device)
                  (Core.speed device) now_str id entry Hin Hres)
        as (entry' & Hin' & Hres' & _).
      rewrite <- handle_device_event_registry with (enumeration := enumeration)
        (action := action) in Hin'.
      exact (IH _ id entry' Hin' Hres').
  - intros speed1 now1 speed2 now2.
    rewrite (update_registry_same _ _ _ _ _ _
               (update_registry_new ∅ "d1" "Acme Widget" speed1 now1 (lookup_empty _))).
    reflexivity.
Qed.

Lemma registry_name_never_downgrades_witness :
  exists entry',
    fst (Ui.update_registry
           (<["SERIAL:XYZ" := {| Ui.name := "Acme Widget"; Ui.speeds := ∅;
                                 Ui.last_seen := "10:00:00" |}]> ∅)
           "SERIAL:XYZ" "USB Device (----:----)" "N/A" "10:00:05")
      !! "SERIAL:XYZ" = Some entry' /\
    Ui.is_unknown_name (Ui.name entry') = false /\
    (Ui.is_unknown_name "USB Device (----:----)" = true ->
     Ui.name entry' = "Acme Widget").
Proof.
  destruct registry_name_never_downgrades as (Hone & _ & _).
  apply (Hone
           (<["SERIAL:XYZ" := {| Ui.name := "Acme Widget"; Ui.speeds := ∅;
                                 Ui.last_seen := "10:00:00" |}]> ∅)
           "SERIAL:XYZ" "USB Device (----:----)" "N/A" "10:00:05"
           {| Ui.name := "Acme Widget"; Ui.speeds := ∅; Ui.last_seen := "10:00:00" |}).
  - reflexivity.
  - reflexivity.
Defined.

(** ** Event log *)

Lemma processed_formats (device : Core.USBDevice) :
  processed device = true ->
  exists formatted label,
    Utils.format_speed (Core.speed device) = Py.Ok (formatted, label).
Proof.
  unfold processed.
  destruct (Utils.format_speed (Core.speed device)) as [[formatted label] | e];
    [| discriminate].
  intros _. exists formatted, label. reflexivity.
Qed.

(** An event that is not processed leaves the log as it was, and the
    handler raises. *)
Lemma unprocessed_event_raises (self : Ui.MainWindow) (now_str : string)
    (enumeration : list Core.UdevDevice) (action : string)
    (device : Core.USBDevice) :
  processed device = false ->
  Ui.event_log (fst (Ui.handle_device_event self now_str enumeration action device))
    = Ui.event_log self /\
  exists e,
    snd (Ui.handle_device_event self now_str enumeration action device)
      = Py.Raise e.
Proof.
  intros Hun. unfold processed in Hun. split.
  - rewrite handle_device_event_log. unfold Ui.make_log_entry.
    destruct (Utils.format_speed (Core.speed device)) as [[formatted label] | e];
      [discriminate | reflexivity].
  - unfold Ui.handle_device_event.
    destruct (Ui.update_registry _ _ _ _ _) as [registry friendly_name].
    unfold Ui.make_log_entry.
    destruct (Utils.format_speed (Core.speed device)) as [[formatted label] | e];
      [discriminate |].
    exists e. reflexivity.
Qed.

(** The float division by 1000 does not overflow below [2^1031]. *)
Lemma true_div_1000_in_range (a : Z) :
  1000 <= a -> a < 2 ^ 1031 -> is_Some (Py.true_div a 1000).
Proof.
  intros Hlo Hhi.
  assert (Hlog : Z.log2 a <= 1030).
  { apply Z.lt_succ_r. apply Z.log2_lt_pow2; [lia | exact Hhi]. }
  clear Hhi. unfold Py.true_div. change (Z.log2 1000) with 9.
  destruct (Py.scale2 a 1000 (Z.log2 a - 9 - 52)) as [n0 d0].
  set (e := if n0 / d0 <? 2 ^ 52 then Z.log2 a - 9 - 52 - 1 else Z.log2 a - 9 - 52).
  assert (He : e <= 969) by (subst e; destruct (n0 / d0 <? 2 ^ 52); lia).
  clearbody e. destruct (Py.scale2 a 1000 e) as [n d].
  destruct (Py.round_half_even n d =? 2 ^ 53).
  - destruct (Z.ltb_spec 971 (e + 1)); [lia | eexists; reflexivity].
  - destruct (Z.ltb_spec 971 e); [lia | eexists; reflexivity].
Qed.

(** Every event whose speed reading is not a number, or is a number
    below [2^1031], is processed. *)
Lemma processed_unless_astronomic (device : Core.USBDevice) :
  (Py.int (Core.speed device) = None \/
   exists n, Py.int (Core.speed device) = Some n /\ n < 2 ^ 1031) ->
  processed device = true.
Proof.
  intros [Hnone | (n & Hint & Hhi)]; unfold processed.
  - rewrite (format_speed_non_numeric _ Hnone). reflexivity.
  - unfold Utils.format_speed. rewrite Hint.
    destruct (negb (Py.nonempty (Core.speed device))
              || String.eqb (Core.speed device) "N/A"); [reflexivity |].
    repeat (match goal with
            | |- context [if ?n =? ?k then _ else _] =>
                destruct (n =? k); [reflexivity |]
            end).
    destruct (Z.leb_spec 1000 n) as [Hlo | _]; [| reflexivity].
    unfold Py.format_g_div.
    destruct (true_div_1000_in_range n Hlo Hhi) as [[m e] ->]. reflexivity.
Qed.

(** C6: every processed event appends exactly one entry at the end of
    the log, stamped with its time and kind, whatever its identity and
    kind; over a sequence of processed events the log grows by one
    entry per event, in the order of arrival, and what was logged
    before stays in place; a connect and a disconnect give two
    entries. *)
Theorem event_log_appends_once :
  (forall (self : Ui.MainWindow) (now_str : string)
          (enumeration : list Core.UdevDevice) (action : string)
          (device : Core.USBDevice),
     processed device = true ->
     exists entry,
       Ui.event_log
         (fst (Ui.handle_device_event self now_str enumeration action device))
       = (Ui.event_log self ++ [entry])%list /\
       Ui.time entry = now_str /\ Ui.event entry = Ui.evt_type action) /\
  (forall (events : list (string * list Core.UdevDevice * string * Core.USBDevice))
          (self : Ui.MainWindow),
     Forall (fun ev => processed (snd ev) = true) events ->
     exists entries,
       Ui.event_log (Ui.handle_all self events)
         = (Ui.event_log self ++ entries)%list /\
       Forall2
         (fun ev entry =>
            Ui.time entry = fst (fst (fst ev)) /\
            Ui.event entry = Ui.evt_type (snd (fst ev)))
         events entries) /\
  (forall (self : Ui.MainWindow) (time1 time2 : string)
          (present1 present2 : list Core.UdevDevice)
          (connected disconnected : Core.USBDevice),
     processed connected = true -> processed disconnected = true ->
     exists entry1 entry2,
       Ui.event_log
         (Ui.handle_all self [(time1, present1, "add", connected);
                              (time2, present2, "remove", disconnected)])
       = (Ui.event_log self ++ [entry1; entry2])%list /\
       Ui.event entry1 = "Connected" /\ Ui.event entry2 = "Disconnected").
Proof.
  assert (Hone :
    forall (self : Ui.MainWindow) (now_str : string)
           (enumeration : list Core.UdevDevice) (action : string)
           (device : Core.USBDevice),
      processed device = true ->
      exists entry,
        Ui.event_log
          (fst (Ui.handle_device_event self now_str enumeration action device))
        = (Ui.event_log self ++ [entry])%list /\
        Ui.time entry = now_str /\ Ui.event entry = Ui.evt_type action).
  { intros self now_str enumeration action device Hproc.
    destruct (processed_formats device Hproc) as (formatted & label & Hfmt).
    rewrite handle_device_event_log.
    rewrite (make_log_entry_formats _ _ _ _ _ _ Hfmt).
    eexists. split; [reflexivity |]. split; reflexivity. }
  assert (Hall :
    forall (events : list (string * list Core.UdevDevice * string * Core.USBDevice))
           (self : Ui.MainWindow),
      Forall (fun ev => processed (snd ev) = true) events ->
      exists entries,
        Ui.event_log (Ui.handle_all self events)
          = (Ui.event_log self ++ entries)%list /\
        Forall2
          (fun ev entry =>
             Ui.time entry = fst (fst (fst ev)) /\
             Ui.event entry = Ui.evt_type (snd (fst ev)))
          events entries).
  { induction events as [| [[[now_str enumeration] action] device] events IH];
      intros self Hproc.
    - exists []. split; [symmetry; apply app_nil_r | constructor].
    - inversion Hproc as [| ev evs Hhead Htail]; subst.
      destruct (Hone self now_str enumeration action device Hhead)
        as (entry & Hlog & Htime & Hkind).
      destruct (IH (fst (Ui.handle_device_event self now_str enumeration action device))
                  Htail) as (entries & Hlogs & Hrel).
      exists (entry :: entries). split.
      + unfold Ui.handle_all in *. cbn [foldl]. rewrite Hlogs, Hlog, <- app_assoc.
        reflexivity.
      + constructor; [split; assumption | exact Hrel]. }
  split; [exact Hone | split; [exact Hall |]].
  intros self time1 time2 present1 present2 connected disconnected Hc Hd.
  destruct (Hall [(time1, present1, "add", connected);
                  (time2, present2, "remove", disconnected)] self)
    as (entries & Hlog & Hrel).
  { repeat constructor; assumption. }
  inversion Hrel as [| ev1 entry1 evs1 rest1 [_ Hk1] Hrel1]; subst.
  inversion Hrel1 as [| ev2 entry2 evs2 rest2 [_ Hk2] Hrel2]; subst.
  inversion Hrel2; subst.
  exists entry1, entry2. split; [exact Hlog |]. split; assumption.
Qed.

Lemma event_log_appends_once_witness :
  exists entry,
    Ui.event_log
      (fst (Ui.handle_device_event fresh_window "10:00:00" [] "add"
              (snapshot "/sys/devices/usb1/1-2" "1-2" (Some "XYZ") "Acme" "Widget" "5000")))
    = (Ui.event_log fresh_window ++ [entry])%list /\
    Ui.time entry = "10:00:00" /\ Ui.event entry = Ui.evt_type "add".
Proof.
  destruct event_log_appends_once as (Hone & _ & _).
  apply (Hone fresh_window "10:00:00" [] "add"
           (snapshot "/sys/devices/usb1/1-2" "1-2" (Some "XYZ") "Acme" "Widget" "5000")).
  reflexivity.
Defined.

(** C10: the entry a processed remove event appends has the speed
    field "-", whatever speed its snapshot carries; the entry of a
    processed event of any other kind has the formatted speed of the
    snapshot. *)
Theorem log_entry_speed_field (self : Ui.MainWindow) (now_str : string)
    (enumeration : list Core.UdevDevice) (action : string)
    (device : Core.USBDevice) (formatted label : string) :
  Utils.format_speed (Core.speed device) = Py.Ok (formatted, label) ->
  exists entry,
    Ui.event_log
      (fst (Ui.handle_device_event self now_str enumeration action device))
    = (Ui.event_log self ++ [entry])%list /\
    (action = "remove" -> Ui.speed entry = "-") /\
    (action <> "remove" -> Ui.speed entry = formatted).
Proof.
  intros Hfmt. rewrite handle_device_event_log.
  rewrite (make_log_entry_formats _ _ _ _ _ _ Hfmt).
  eexists. split; [reflexivity |]. cbn [Ui.speed]. split.
  - intros ->. reflexivity.
  - intros Hne. destruct (String.eqb_spec action "remove");
      [contradiction | reflexivity].
Qed.

Lemma log_entry_speed_field_witness :
  (exists entry,
     Ui.event_log
       (fst (Ui.handle_device_event fresh_window "10:00:09" [] "remove"
               (snapshot "/sys/devices/usb1/1-2" "1-2" None "Unknown" "Unknown" "5000")))
     = (Ui.event_log fresh_window ++ [entry])%list /\
     ("remove" = "remove" -> Ui.speed entry = "-") /\
     ("remove" <> "remove" -> Ui.speed entry = "5 Gbps"))
  /\
  (exists entry,
     Ui.event_log
       (fst (Ui.handle_device_event fresh_window "10:00:00" [] "add"
               (snapshot "/sys/devices/usb1/1-2" "1-2" (Some "XYZ") "Acme" "Widget" "5000")))
     = (Ui.event_log fresh_window ++ [entry])%list /\
     ("add" = "remove" -> Ui.speed entry = "-") /\
     ("add" <> "remove" -> Ui.speed entry = "5 Gbps")).
Proof.
  split.
  - apply (log_entry_speed_field fresh_window "10:00:09" [] "remove"
             (snapshot "/sys/devices/usb1/1-2" "1-2" None "Unknown" "Unknown" "5000")
             "5 Gbps" "USB 3.2 Gen 1 (SuperSpeed)").
    reflexivity.
  - apply (log_entry_speed_field fresh_window "10:00:00" [] "add"
             (snapshot "/sys/devices/usb1/1-2" "1-2" (Some "XYZ") "Acme" "Widget" "5000")
             "5 Gbps" "USB 3.2 Gen 1 (SuperSpeed)").
    reflexivity.
Defined.

(** ** Event kinds *)

(** C8, as worded, fails: the action "move" is none of the five
    recognised actions, and it is logged with the kind of "change". *)
Lemma unrecognized_action_gets_own_kind_fails :
  ~ unrecognized_action_gets_own_kind.
Proof.
  intros Hclaim.
  apply (Hclaim "move" "change").
  - intros Hin. repeat (apply elem_of_cons in Hin as [Hin | Hin]; [discriminate Hin |]).
    inversion Hin.
  - apply elem_of_cons. right. apply elem_of_cons. right.
    apply elem_of_cons. left. reflexivity.
  - reflexivity.
Qed.

(** C8, amended: the monitor hands the raw action to the consumer as
    it came, and the log knows three kinds: "Connected" for add,
    "Disconnected" for remove, and "Changed" for every other action
    (change, bind, unbind and every action that is not recognised).
    There is no kind for ignored events. *)
Theorem event_kinds_are_three (action : string) :
  (forall (self : Core.DeviceManager) (ev : Core.MonitorEvent),
     fst (snd (Core.monitor_event self ev)) = Core.action ev) /\
  ((action = "add" /\ Ui.evt_type action = "Connected") \/
   (action = "remove" /\ Ui.evt_type action = "Disconnected") \/
   (action <> "add" /\ action <> "remove" /\ Ui.evt_type action = "Changed")).
Proof.
  split; [exact monitor_event_action |].
  unfold Ui.evt_type.
  destruct (String.eqb_spec action "add") as [Hadd | Hadd]; [left; split; auto |].
  destruct (String.eqb_spec action "remove") as [Hrm | Hrm];
    [right; left; split; auto |].
  right. right.
  destruct (String.eqb action "change"); repeat split; assumption.
Qed.

(** * Further properties of the code *)

(** ** Identities and the device cache *)

(** X1: a device that is identified by its serial shares its identity
    only with devices of the same serial: never with a device that has
    no serial, whatever that device's ids and port are. *)
Theorem serial_identity_is_exclusive (d1 d2 : Core.USBDevice) :
  Core._forced_stable_id d1 = None ->
  Core._forced_stable_id d2 = None ->
  Py.truthy (Core.serial d1) = true ->
  Core.stable_id d1 = Core.stable_id d2 ->
  Core.serial d2 = Core.serial d1.
Proof.
  intros Hf1 Hf2 Hs1 Heq.
  rewrite !stable_id_unforced in Heq by assumption. rewrite Hs1 in Heq.
  destruct (truthy_some _ Hs1) as (s1 & Hser1 & _).
  destruct (Py.truthy (Core.serial d2)) eqn:Hs2.
  - destruct (truthy_some _ Hs2) as (s2 & Hser2 & _).
    rewrite Hser1, Hser2 in *. cbv in Heq. congruence.
  - cbv in Heq. discriminate Heq.
Qed.

Lemma serial_identity_is_exclusive_witness :
  Core.serial (snapshot "/sys/devices/usb2/2-1" "2-1" (Some "XYZ") "Other" "Thing" "480")
  = Core.serial (snapshot "/sys/devices/usb1/1-2" "1-2" (Some "XYZ") "Acme" "Widget" "5000").
Proof.
  apply (serial_identity_is_exclusive
           (snapshot "/sys/devices/usb1/1-2" "1-2" (Some "XYZ") "Acme" "Widget" "5000")
           (snapshot "/sys/devices/usb2/2-1" "2-1" (Some "XYZ") "Other" "Thing" "480"));
    reflexivity.
Defined.

(** The device cache after one event, in closed form. *)
Lemma monitor_event_device_cache (self : Core.DeviceManager)
    (ev : Core.MonitorEvent) :
  Core._device_cache (fst (Core.monitor_event self ev)) =
    if String.eqb (Core.action ev) "add" then
      <[Core.stable_id (Core.USBDevice_init (Core.device ev)) :=
          Core.USBDevice_init (Core.device ev)]> (Core._device_cache self)
    else if String.eqb (Core.action ev) "remove" then
      delete (resolved_identity self ev) (Core._device_cache self)
    else Core._device_cache self.
Proof.
  unfold resolved_identity, Core.monitor_event.
  destruct (String.eqb (Core.action ev) "add"); [reflexivity |].
  destruct (String.eqb (Core.action ev) "remove") eqn:Hrm; cbn [orb].
  - destruct (Core._syspath_map self !! Core.sys_path _); reflexivity.
  - destruct (String.eqb (Core.action ev) "unbind"); [| reflexivity].
    destruct (Core._syspath_map self !! Core.sys_path _); reflexivity.
Qed.

(** X2: an add event caches the fresh snapshot under its identity; a
    remove event deletes the cache entry of the identity it resolves
    to and leaves no entry for its path; an event of any other kind
    leaves the manager exactly as it was. *)
Theorem device_cache_lifecycle (self : Core.DeviceManager)
    (ev : Core.MonitorEvent) :
  (Core.action ev = "add" ->
     Core._device_cache (fst (Core.monitor_event self ev)) =
       <[Core.stable_id (Core.USBDevice_init (Core.device ev)) :=
           Core.USBDevice_init (Core.device ev)]> (Core._device_cache self)) /\
  (Core.action ev = "remove" ->
     Core._device_cache (fst (Core.monitor_event self ev)) =
       delete (resolved_identity self ev) (Core._device_cache self) /\
     Core._device_cache (fst (Core.monitor_event self ev))
       !! resolved_identity self ev = None /\
     Core._syspath_map (fst (Core.monitor_event self ev))
       !! Core.u_sys_path (Core.device ev) = None) /\
  (Core.action ev <> "add" -> Core.action ev <> "remove" ->
     fst (Core.monitor_event self ev) = self).
Proof.
  split; [| split].
  - intros Hact. rewrite monitor_event_device_cache, Hact. reflexivity.
  - intros Hact. rewrite monitor_event_device_cache, monitor_event_syspath_map, Hact.
    cbn [String.eqb Ascii.eqb Bool.eqb]. repeat split; apply lookup_delete_eq.
  - intros Hadd Hrm.
    pose proof (monitor_event_device_cache self ev) as Hcache.
    pose proof (monitor_event_syspath_map self ev) as Hmap.
    destruct (String.eqb_spec (Core.action ev) "add"); [contradiction |].
    destruct (String.eqb_spec (Core.action ev) "remove"); [contradiction |].
    destruct (fst (Core.monitor_event self ev)) as [cache map], self as [cache0 map0].
    cbn in Hcache, Hmap. subst. reflexivity.
Qed.

Lemma device_cache_lifecycle_witness :
  Core._device_cache
    (fst (Core.monitor_event
            {| Core._device_cache :=
                 <["SERIAL:XYZ" :=
                     snapshot "/sys/devices/usb1/1-2" "1-2" (Some "XYZ") "Acme" "Widget" "5000"]> ∅;
               Core._syspath_map := <["/sys/devices/usb1/1-2" := "SERIAL:XYZ"]> ∅ |}
            {| Core.action := "remove";
               Core.device := raw_device "/sys/devices/usb1/1-2" "1-2" [] |}))
    !! "SERIAL:XYZ" = None
  /\
  fst (Core.monitor_event Core.DeviceManager_init
         {| Core.action := "bind";
            Core.device := raw_device "/sys/devices/usb1/1-2" "1-2" [] |})
  = Core.DeviceManager_init.
Proof.
  split.
  - destruct (device_cache_lifecycle
                {| Core._device_cache :=
                     <["SERIAL:XYZ" :=
                         snapshot "/sys/devices/usb1/1-2" "1-2" (Some "XYZ") "Acme" "Widget" "5000"]> ∅;
                   Core._syspath_map := <["/sys/devices/usb1/1-2" := "SERIAL:XYZ"]> ∅ |}
                {| Core.action := "remove";
                   Core.device := raw_device "/sys/devices/usb1/1-2" "1-2" [] |})
      as (_ & Hremove & _).
    destruct (Hremove eq_refl) as (_ & Hgone & _). exact Hgone.
  - destruct (device_cache_lifecycle Core.DeviceManager_init
                {| Core.action := "bind";
                   Core.device := raw_device "/sys/devices/usb1/1-2" "1-2" [] |})
      as (_ & _ & Hother).
    apply Hother; discriminate.
Defined.

(** ** Invariants of the manager *)

Lemma list_devices_consistent (enumeration : list Core.UdevDevice)
    (self : Core.DeviceManager) :
  manager_consistent self ->
  manager_consistent (fst (Core.list_devices self enumeration)).
Proof.
  intros Hself.
  induction enumeration as [| x enumeration [IHc IHp]] using rev_ind;
    [exact Hself |].
  rewrite list_devices_snoc. split; cbn [fst Core._device_cache Core._syspath_map].
  - intros id d Hin. apply lookup_insert_Some in Hin as [[<- <-] | [_ Hin]];
      [reflexivity | exact (IHc id d Hin)].
  - intros path id Hin. apply lookup_insert_Some in Hin as [[<- <-] | [_ Hin]];
      [exists x; split; reflexivity | exact (IHp path id Hin)].
Qed.

Lemma monitor_event_consistent (self : Core.DeviceManager)
    (ev : Core.MonitorEvent) :
  manager_consistent self ->
  manager_consistent (fst (Core.monitor_event self ev)).
Proof.
  intros [Hc Hp]. split.
  - intros id d. rewrite monitor_event_device_cache.
    destruct (String.eqb (Core.action ev) "add").
    + intros Hin. apply lookup_insert_Some in Hin as [[<- <-] | [_ Hin]];
        [reflexivity | exact (Hc id d Hin)].
    + destruct (String.eqb (Core.action ev) "remove"); [| apply Hc].
      intros Hin. apply lookup_delete_Some in Hin as [_ Hin]. exact (Hc id d Hin).
  - intros path id. rewrite monitor_event_syspath_map.
    destruct (String.eqb (Core.action ev) "add").
    + intros Hin. apply lookup_insert_Some in Hin as [[<- <-] | [_ Hin]];
        [exists (Core.device ev); split; reflexivity | exact (Hp path id Hin)].
    + destruct (String.eqb (Core.action ev) "remove"); [| apply Hp].
      intros Hin. apply lookup_delete_Some in Hin as [_ Hin]. exact (Hp path id Hin).
Qed.

Lemma reachable_consistent (self : Core.DeviceManager) :
  reachable self -> manager_consistent self.
Proof.
  induction 1 as [| self enumeration _ IH | self ev _ IH].
  - split; intros ? ? Hin; cbn in Hin; rewrite lookup_empty in Hin; discriminate.
  - apply list_devices_consistent, IH.
  - apply monitor_event_consistent, IH.
Qed.

(** X3: in every manager the program can reach by enumerations and
    monitor events, each cached snapshot is stored under its own
    identity, and each path is mapped to the identity of a fresh
    snapshot taken at that path (so to a non-empty identity that starts
    with "SERIAL:" or "PATH:"). *)
Theorem reachable_manager_is_consistent (self : Core.DeviceManager) :
  reachable self ->
  (forall id d, Core._device_cache self !! id = Some d -> Core.stable_id d = id) /\
  (forall path id, Core._syspath_map self !! path = Some id ->
     Py.nonempty id = true /\
     exists u, Core.u_sys_path u = path /\
               id = Core.stable_id (Core.USBDevice_init u)).
Proof.
  intros Hreach. destruct (reachable_consistent self Hreach) as [Hc Hp].
  split; [exact Hc |]. intros path id Hin.
  destruct (Hp path id Hin) as (u & Hpath & ->).
  split; [apply stable_id_init_nonempty | exists u; split; [exact Hpath | reflexivity]].
Qed.

Lemma reachable_manager_is_consistent_witness :
  Py.nonempty "SERIAL:XYZ" = true /\
  exists u, Core.u_sys_path u = "/sys/devices/usb1/1-2" /\
            "SERIAL:XYZ" = Core.stable_id (Core.USBDevice_init u).
Proof.
  destruct (reachable_manager_is_consistent
              (fst (Core.monitor_event Core.DeviceManager_init
                      {| Core.action := "add";
                         Core.device := raw_device "/sys/devices/usb1/1-2" "1-2"
                                          [("ID_SERIAL_SHORT", "XYZ")] |})))
    as [_ Hpaths].
  - apply reachable_monitor_event, reachable_init.
  - apply (Hpaths "/sys/devices/usb1/1-2" "SERIAL:XYZ"). reflexivity.
Defined.

(** X4: in a reachable manager, a remove or an unbind for a path that
    has an entry resolves to the stored identity, whether an add event
    or an enumeration stored it, and whatever the removal-time
    snapshot reads. *)
Theorem known_path_resolves_to_stored_identity (self : Core.DeviceManager)
    (ev : Core.MonitorEvent) (known_id : string) :
  reachable self ->
  Core.action ev = "remove" \/ Core.action ev = "unbind" ->
  Core._syspath_map self !! Core.u_sys_path (Core.device ev) = Some known_id ->
  resolved_identity self ev = known_id.
Proof.
  intros Hreach Hact Hin. unfold resolved_identity.
  rewrite (monitor_event_known self ev known_id Hact Hin).
  apply stable_id_forced.
  destruct (reachable_consistent self Hreach) as [_ Hp].
  destruct (Hp _ _ Hin) as (u & _ & ->). apply stable_id_init_nonempty.
Qed.

Lemma known_path_resolves_to_stored_identity_witness :
  resolved_identity
    (fst (Core.list_devices Core.DeviceManager_init
            [raw_device "/sys/devices/usb1/1-2" "1-2" [("ID_SERIAL_SHORT", "XYZ")]]))
    {| Core.action := "unbind";
       Core.device := raw_device "/sys/devices/usb1/1-2" "1-2" [] |}
  = "SERIAL:XYZ".
Proof.
  apply (known_path_resolves_to_stored_identity
           (fst (Core.list_devices Core.DeviceManager_init
                   [raw_device "/sys/devices/usb1/1-2" "1-2" [("ID_SERIAL_SHORT", "XYZ")]]))
           {| Core.action := "unbind";
              Core.device := raw_device "/sys/devices/usb1/1-2" "1-2" [] |}
           "SERIAL:XYZ").
  - apply reachable_list_devices, reachable_init.
  - right. reflexivity.
  - reflexivity.
Defined.

(** ** What the monitor hands on *)

Lemma monitor_event_sys_path (self : Core.DeviceManager)
    (ev : Core.MonitorEvent) :
  Core.sys_path (snd (snd (Core.monitor_event self ev)))
  = Core.u_sys_path (Core.device ev).
Proof.
  unfold Core.monitor_event.
  destruct (String.eqb (Core.action ev) "add"); [reflexivity |].
  destruct (String.eqb (Core.action ev) "remove" || String.eqb (Core.action ev) "unbind");
    [| reflexivity].
  destruct (Core._syspath_map self !! _); reflexivity.
Qed.

(** X5: the monitor loop calls the consumer once for every event that
    [poll] returns and never for a timeout, in the order of arrival,
    with the action and the path of the event. *)
Theorem monitor_loop_delivers_in_order (polls : list (option Core.MonitorEvent))
    (self : Core.DeviceManager) :
  map (fun call => (fst call, Core.sys_path (snd call)))
    (snd (Core._monitor_loop self polls))
  = map (fun ev => (Core.action ev, Core.u_sys_path (Core.device ev)))
      (polled_events polls).
Proof.
  revert self. induction polls as [| poll polls IH]; intros self; [reflexivity |].
  rewrite monitor_loop_cons. destruct poll as [ev |]; [| apply IH].
  cbn [snd map polled_events omap]. unfold polled_events in IH.
  cbn. rewrite IH, monitor_event_action, monitor_event_sys_path. reflexivity.
Qed.

(** ** Enumeration, again *)

Lemma list_devices_syspath_lookup (enumeration : list Core.UdevDevice)
    (self : Core.DeviceManager) (u : Core.UdevDevice) :
  u ∈ enumeration ->
  exists u', u' ∈ enumeration /\
    Core.u_sys_path u' = Core.u_sys_path u /\
    Core._syspath_map (fst (Core.list_devices self enumeration))
      !! Core.u_sys_path u
    = Some (Core.stable_id (Core.USBDevice_init u')).
Proof.
  induction enumeration as [| x enumeration IH] using rev_ind;
    [intros Hu; inversion Hu |].
  intros Hu. rewrite list_devices_snoc. cbn [fst Core._syspath_map].
  destruct (decide (Core.u_sys_path x = Core.u_sys_path u)) as [Heq | Hne].
  - exists x. split; [apply elem_of_app; right; apply list_elem_of_singleton; reflexivity |].
    split; [exact Heq |]. rewrite <- Heq. apply lookup_insert_eq.
  - apply elem_of_app in Hu as [Hu | Hu].
    + destruct (IH Hu) as (u' & Hu' & Hp & Hl).
      exists u'. split; [apply elem_of_app; left; exact Hu' |].
      split; [exact Hp |]. rewrite lookup_insert_ne by exact Hne. exact Hl.
    + apply list_elem_of_singleton in Hu. subst u. contradiction.
Qed.

(** X6: a device that was only enumerated, never seen in an add
    event, is still correlated when it goes: the remove or unbind for
    its path resolves to the identity of a snapshot the enumeration
    took at that path. *)
Theorem enumerated_device_is_correlated_on_removal (self : Core.DeviceManager)
    (enumeration : list Core.UdevDevice) (u : Core.UdevDevice)
    (ev : Core.MonitorEvent) :
  u ∈ enumeration ->
  Core.u_sys_path (Core.device ev) = Core.u_sys_path u ->
  Core.action ev = "remove" \/ Core.action ev = "unbind" ->
  exists u', u' ∈ enumeration /\
    Core.u_sys_path u' = Core.u_sys_path u /\
    resolved_identity (fst (Core.list_devices self enumeration)) ev
    = Core.stable_id (Core.USBDevice_init u').
Proof.
  intros Hu Hpath Hact.
  destruct (list_devices_syspath_lookup enumeration self u Hu) as (u' & Hu' & Hp & Hl).
  exists u'. split; [exact Hu' |]. split; [exact Hp |].
  unfold resolved_identity. rewrite <- Hpath in Hl.
  rewrite (monitor_event_known _ ev _ Hact Hl).
  apply stable_id_forced, stable_id_init_nonempty.
Qed.

Lemma enumerated_device_is_correlated_on_removal_witness :
  exists u',
    u' ∈ [raw_device "/sys/devices/usb1/1-2" "1-2" [("ID_SERIAL_SHORT", "XYZ")]] /\
    Core.u_sys_path u'
    = Core.u_sys_path
        (raw_device "/sys/devices/usb1/1-2" "1-2" [("ID_SERIAL_SHORT", "XYZ")]) /\
    resolved_identity
      (fst (Core.list_devices Core.DeviceManager_init
              [raw_device "/sys/devices/usb1/1-2" "1-2" [("ID_SERIAL_SHORT", "XYZ")]]))
      {| Core.action := "remove";
         Core.device := raw_device "/sys/devices/usb1/1-2" "1-2" [] |}
    = Core.stable_id (Core.USBDevice_init u').
Proof.
  apply (enumerated_device_is_correlated_on_removal Core.DeviceManager_init
           [raw_device "/sys/devices/usb1/1-2" "1-2" [("ID_SERIAL_SHORT", "XYZ")]]
           (raw_device "/sys/devices/usb1/1-2" "1-2" [("ID_SERIAL_SHORT", "XYZ")])
           {| Core.action := "remove";
              Core.device := raw_device "/sys/devices/usb1/1-2" "1-2" [] |}).
  - apply list_elem_of_singleton. reflexivity.
  - reflexivity.
  - left. reflexivity.
Defined.

(** Writing an entry that a later pass over the same devices writes
    again changes nothing in the end. *)
Lemma list_devices_absorbs_insert (enumeration : list Core.UdevDevice)
    (x : Core.UdevDevice) (self self' : Core.DeviceManager) :
  Core._device_cache self' =
    <[Core.stable_id (Core.USBDevice_init x) := Core.USBDevice_init x]>
      (Core._device_cache self) ->
  Core._syspath_map self' =
    <[Core.u_sys_path x := Core.stable_id (Core.USBDevice_init x)]>
      (Core._syspath_map self) ->
  <[Core.stable_id (Core.USBDevice_init x) := Core.USBDevice_init x]>
    (Core._device_cache (fst (Core.list_devices self' enumeration)))
  = <[Core.stable_id (Core.USBDevice_init x) := Core.USBDevice_init x]>
      (Core._device_cache (fst (Core.list_devices self enumeration))) /\
  <[Core.u_sys_path x := Core.stable_id (Core.USBDevice_init x)]>
    (Core._syspath_map (fst (Core.list_devices self' enumeration)))
  = <[Core.u_sys_path x := Core.stable_id (Core.USBDevice_init x)]>
      (Core._syspath_map (fst (Core.list_devices self enumeration))).
Proof.
  intros Hc Hp.
  induction enumeration as [| y enumeration [IHc IHp]] using rev_ind.
  - cbn. rewrite Hc, Hp, !insert_insert_eq. split; reflexivity.
  - rewrite !list_devices_snoc. cbn [fst Core._device_cache Core._syspath_map]. split.
    + destruct (decide (Core.stable_id (Core.USBDevice_init x)
                        = Core.stable_id (Core.USBDevice_init y))) as [Heq | Hne].
      * rewrite <- Heq, !insert_insert_eq. exact IHc.
      * rewrite !(insert_insert_ne _ (Core.stable_id (Core.USBDevice_init x))) by exact Hne.
        rewrite IHc. reflexivity.
    + destruct (decide (Core.u_sys_path x = Core.u_sys_path y)) as [Heq | Hne].
      * rewrite <- Heq, !insert_insert_eq. exact IHp.
      * rewrite !(insert_insert_ne _ (Core.u_sys_path x)) by exact Hne.
        rewrite IHp. reflexivity.
Qed.

(** X7: enumerating the same devices twice in a row leaves the manager
    as one enumeration does, and returns the same snapshots: a refresh
    can be repeated without effect. *)
Theorem list_devices_is_idempotent (enumeration : list Core.UdevDevice)
    (self : Core.DeviceManager) :
  Core.list_devices (fst (Core.list_devices self enumeration)) enumeration
  = Core.list_devices self enumeration.
Proof.
  assert (Hret : forall s, snd (Core.list_devices s enumeration)
                           = map Core.USBDevice_init enumeration).
  { intros s. induction enumeration as [| x l IH] using rev_ind; [reflexivity |].
    rewrite list_devices_snoc, map_app. cbn [snd]. rewrite IH. reflexivity. }
  apply injective_projections; [| rewrite !Hret; reflexivity].
  clear Hret. induction enumeration as [| x enumeration IH] using rev_ind;
    [reflexivity |].
  rewrite (list_devices_snoc self enumeration x). cbn [fst].
  set (once := fst (Core.list_devices self enumeration)) in *.
  rewrite list_devices_snoc. cbn [fst].
  destruct (list_devices_absorbs_insert enumeration x once
              {| Core._device_cache :=
                   <[Core.stable_id (Core.USBDevice_init x) := Core.USBDevice_init x]>
                     (Core._device_cache once);
                 Core._syspath_map :=
                   <[Core.u_sys_path x := Core.stable_id (Core.USBDevice_init x)]>
                     (Core._syspath_map once) |} eq_refl eq_refl) as [Hc Hp].
  rewrite Hc, Hp. subst once. rewrite IH. reflexivity.
Qed.

(** ** Names *)

(** X8: a device for which udev reports neither vendor nor model nor
    their ids (as it is for most removals) gets the name
    "USB Device (----:----)", which the handler treats as a
    placeholder. *)
Theorem unnamed_device_gets_placeholder_name (u : Core.UdevDevice) :
  Core.u_properties u !! "ID_VENDOR" = None ->
  Core.u_properties u !! "ID_MODEL" = None ->
  Core.u_properties u !! "ID_VENDOR_ID" = None ->
  Core.u_properties u !! "ID_MODEL_ID" = None ->
  Core.get_friendly_name (Core.USBDevice_init u) = "USB Device (----:----)" /\
  Ui.is_unknown_name (Core.get_friendly_name (Core.USBDevice_init u)) = true.
Proof.
  intros Hv Hm Hvid Hpid.
  assert (Hname : Core.get_friendly_name (Core.USBDevice_init u)
                  = "USB Device (----:----)").
  { unfold Core.get_friendly_name, Core.USBDevice_init, Core.get.
    cbn [Core.vendor Core.model Core.vid Core.pid].
    rewrite Hv, Hm, Hvid, Hpid. reflexivity. }
  split; [exact Hname | rewrite Hname; reflexivity].
Qed.

Lemma unnamed_device_gets_placeholder_name_witness :
  Core.get_friendly_name
    (Core.USBDevice_init (raw_device "/sys/devices/usb1/1-2" "1-2" [("BUSNUM", "001")]))
  = "USB Device (----:----)"
  /\
  Ui.is_unknown_name
    (Core.get_friendly_name
       (Core.USBDevice_init (raw_device "/sys/devices/usb1/1-2" "1-2" [("BUSNUM", "001")])))
  = true.
Proof.
  apply (unnamed_device_gets_placeholder_name
           (raw_device "/sys/devices/usb1/1-2" "1-2" [("BUSNUM", "001")]));
    reflexivity.
Defined.

Lemma contains_one_char (c : ascii) (s : string) :
  Py.contains (String c "") s =
    match s with
    | EmptyString => false
    | String x s' => Ascii.eqb c x || Py.contains (String c "") s'
    end.
Proof.
  destruct s as [| x s']; [reflexivity |].
  cbn [Py.contains String.prefix]. f_equal.
  destruct (Ascii.ascii_dec c x) as [-> | Hne].
  - rewrite Ascii.eqb_refl. destruct s'; reflexivity.
  - symmetry. apply Ascii.eqb_neq. exact Hne.
Qed.

Lemma replace_char_removes (old new : ascii) (s : string) :
  old <> new -> Py.contains (String old "") (Py.replace_char old new s) = false.
Proof.
  intros Hne. induction s as [| x s IH]; [reflexivity |].
  cbn [Py.replace_char]. rewrite contains_one_char, IH, orb_false_r.
  destruct (Ascii.eqb_spec x old) as [-> | Hx]; apply Ascii.eqb_neq; congruence.
Qed.

(** X9: the friendly name of a device never contains an underscore,
    whatever udev reports as vendor, model and ids. *)
Theorem friendly_name_has_no_underscore (d : Core.USBDevice) :
  Py.contains "_" (Core.get_friendly_name d) = false.
Proof.
  unfold Core.get_friendly_name. apply replace_char_removes. discriminate.
Qed.

(** ** Formatting *)

Lemma format_speed_in_range (speed : string) (n : Z) :
  Py.int speed = Some n -> n < 2 ^ 1031 ->
  exists r, Utils.format_speed speed = Py.Ok r.
Proof.
  intros Hint Hhi. unfold Utils.format_speed. rewrite Hint.
  destruct (negb (Py.nonempty speed) || String.eqb speed "N/A");
    [eexists; reflexivity |].
  repeat (match goal with
          | |- context [if ?x =? ?k then _ else _] =>
              destruct (x =? k); [eexists; reflexivity |]
          end).
  destruct (Z.leb_spec 1000 n) as [Hlo | _]; [| eexists; reflexivity].
  unfold Py.format_g_div.
  destruct (true_div_1000_in_range n Hlo Hhi) as [[m e] ->].
  eexists. reflexivity.
Qed.

Lemma format_speed_exception_kind (speed : string) (e : Py.exn) :
  Utils.format_speed speed = Py.Raise e -> e = Py.OverflowError.
Proof.
  intros Hraise. unfold Utils.format_speed in Hraise.
  destruct (negb (Py.nonempty speed) || String.eqb speed "N/A");
    [discriminate |].
  destruct (Py.int speed) as [n |]; [| discriminate].
  repeat (match type of Hraise with
          | context [if ?x =? ?k then _ else _] =>
              destruct (x =? k); [discriminate |]
          end).
  destruct (1000 <=? n); [| discriminate].
  unfold Py.format_g_div in Hraise.
  destruct (Py.true_div n 1000) as [[m x] |]; [discriminate |].
  congruence.
Qed.

(** X10: the only exception that leaves [format_speed] is
    [OverflowError], and only for a reading that is an integer of at
    least [2^1031]; every other reading, numeric or not, is
    formatted. *)
Theorem format_speed_raises_only_on_overflow (speed : string) (e : Py.exn) :
  Utils.format_speed speed = Py.Raise e ->
  e = Py.OverflowError /\
  exists n, Py.int speed = Some n /\ 2 ^ 1031 <= n.
Proof.
  intros Hraise. split.
  - exact (format_speed_exception_kind speed e Hraise).
  - destruct (Py.int speed) as [n |] eqn:Hint.
    + exists n. split; [reflexivity |].
      destruct (Z.lt_ge_cases n (2 ^ 1031)) as [Hlt | Hge]; [| exact Hge].
      destruct (format_speed_in_range speed n Hint Hlt) as [r Hok].
      rewrite Hok in Hraise. discriminate.
    + rewrite (format_speed_non_numeric speed Hint) in Hraise. discriminate.
Qed.

Lemma format_speed_raises_only_on_overflow_witness :
  Py.OverflowError = Py.OverflowError /\
  exists n,
    Py.int (String "1" (string_of_list_ascii (repeat "0"%char 400))) = Some n /\
    2 ^ 1031 <= n.
Proof.
  apply (format_speed_raises_only_on_overflow
           (String "1" (string_of_list_ascii (repeat "0"%char 400)))
           Py.OverflowError).
  vm_compute. reflexivity.
Defined.

(** X11: the version label is "Unknown" exactly for an empty version
    and for "N/A"; every other version gets a label that starts with
    "USB". *)
Theorem version_label_is_unknown_or_usb (version_str : string) :
  String.eqb (Utils.get_usb_version_label version_str) "Unknown"
    = negb (Py.nonempty version_str) || String.eqb version_str "N/A" /\
  String.prefix "USB" (Utils.get_usb_version_label version_str)
    = negb (negb (Py.nonempty version_str) || String.eqb version_str "N/A").
Proof.
  unfold Utils.get_usb_version_label.
  destruct (negb (Py.nonempty version_str) || String.eqb version_str "N/A");
    [split; reflexivity |].
  repeat (match goal with
          | |- context [if String.prefix ?p ?v then _ else _] =>
              destruct (String.prefix p v); [split; reflexivity |]
          end).
  split; reflexivity.
Qed.

(** ** Versions *)

Lemma list_gt_irrefl (l : list Z) : Py.list_gt l l = false.
Proof.
  induction l as [| x l IH]; [reflexivity |].
  cbn. rewrite Z.eqb_refl. exact IH.
Qed.

Lemma list_gt_asym (l c : list Z) :
  Py.list_gt l c = true -> Py.list_gt c l = false.
Proof.
  revert c. induction l as [| x l IH]; intros [| y c]; cbn; try congruence.
  destruct (Z.eqb_spec x y) as [-> | Hne].
  - rewrite Z.eqb_refl. apply IH.
  - destruct (Z.eqb_spec y x); [congruence |].
    rewrite !Z.ltb_lt, Z.ltb_ge. lia.
Qed.

Lemma list_gt_trans (a b c : list Z) :
  Py.list_gt a b = true -> Py.list_gt b c = true -> Py.list_gt a c = true.
Proof.
  revert b c. induction a as [| x a IH]; intros [| y b] [| z c]; cbn;
    try congruence.
  destruct (Z.eqb_spec x y) as [-> | Hxy].
  - destruct (Z.eqb_spec y z) as [-> | Hyz]; [apply IH | auto].
  - destruct (Z.eqb_spec y z) as [-> | Hyz].
    + destruct (Z.eqb_spec x z); [congruence | auto].
    + rewrite !Z.ltb_lt. intros Hyx Hzy.
      destruct (Z.eqb_spec x z); [lia |]. apply Z.ltb_lt. lia.
Qed.

Lemma list_gt_total (l c : list Z) :
  l <> c -> Py.list_gt l c = true \/ Py.list_gt c l = true.
Proof.
  revert c. induction l as [| x l IH]; intros [| y c] Hne; cbn; auto;
    try congruence.
  destruct (Z.eqb_spec x y) as [-> | Hxy].
  - rewrite Z.eqb_refl. apply IH. congruence.
  - destruct (Z.eqb_spec y x); [congruence |].
    rewrite !Z.ltb_lt. lia.
Qed.

(** X12: "is newer" is a strict order on version strings: no version
    is newer than itself, two versions are never each newer than the
    other, being newer is transitive, and of two well-formed versions
    that differ after padding to three parts one is newer than the
    other.  A version with a part that is not an integer is never
    newer than anything, and nothing is newer than it. *)
Theorem is_newer_is_a_strict_order :
  (forall v, Utils._is_newer v v = false) /\
  (forall current latest,
     Utils._is_newer current latest = true ->
     Utils._is_newer latest current = false) /\
  (forall v1 v2 v3,
     Utils._is_newer v1 v2 = true -> Utils._is_newer v2 v3 = true ->
     Utils._is_newer v1 v3 = true) /\
  (forall v1 v2 parts1 parts2,
     Py.ints (Py.split_char "." v1) = Some parts1 ->
     Py.ints (Py.split_char "." v2) = Some parts2 ->
     Utils.normalize_length parts1 <> Utils.normalize_length parts2 ->
     Utils._is_newer v1 v2 = true \/ Utils._is_newer v2 v1 = true) /\
  (forall bad v,
     Py.ints (Py.split_char "." bad) = None ->
     Utils._is_newer bad v = false /\ Utils._is_newer v bad = false).
Proof.
  unfold Utils._is_newer. split; [| split; [| split; [| split]]].
  - intros v. destruct (Py.ints _); [apply list_gt_irrefl | reflexivity].
  - intros current latest.
    destruct (Py.ints (Py.split_char "." current)) as [c_parts |];
      [| discriminate].
    destruct (Py.ints (Py.split_char "." latest)) as [l_parts |];
      [| discriminate].
    apply list_gt_asym.
  - intros v1 v2 v3.
    destruct (Py.ints (Py.split_char "." v1)); [| discriminate].
    destruct (Py.ints (Py.split_char "." v2)); [| discriminate].
    destruct (Py.ints (Py.split_char "." v3)); [| discriminate].
    intros H12 H23. exact (list_gt_trans _ _ _ H23 H12).
  - intros v1 v2 parts1 parts2 -> -> Hne.
    destruct (list_gt_total _ _ Hne); auto.
  - intros bad v ->. split; [reflexivity |].
    destruct (Py.ints _); reflexivity.
Qed.

Lemma is_newer_is_a_strict_order_witness :
  Utils._is_newer "0.2" "0.1.0" = false /\
  Utils._is_newer "0.1.0" "1.0" = true /\
  (Utils._is_newer "1.2" "1.2.1" = true \/ Utils._is_newer "1.2.1" "1.2" = true) /\
  Utils._is_newer "" "1.0" = false.
Proof.
  destruct is_newer_is_a_strict_order as (_ & Hasym & Htrans & Htotal & Hbad).
  split; [| split; [| split]].
  - apply (Hasym "0.1.0" "0.2"). reflexivity.
  - apply (Htrans "0.1.0" "0.2" "1.0"); reflexivity.
  - apply (Htotal "1.2" "1.2.1" [1; 2] [1; 2; 1]); [reflexivity | reflexivity |].
    discriminate.
  - destruct (Hbad "" "1.0" eq_refl) as [Hnever _]. exact Hnever.
Defined.

(** ** The speed history under the handler *)

Lemma raise_maximum_lookup (history : gmap string Z) (id : string) (n : Z) :
  raise_maximum history id n !! id =
    Some (match history !! id with Some m => Z.max m n | None => n end).
Proof.
  unfold raise_maximum. destruct (history !! id) as [m |] eqn:Hold.
  - destruct (Z.ltb_spec m n).
    + rewrite lookup_insert_eq. f_equal. lia.
    + rewrite Hold. f_equal. lia.
  - apply lookup_insert_eq.
Qed.

Lemma raise_maximum_other (history : gmap string Z) (id other : string) (n : Z) :
  other <> id -> raise_maximum history id n !! other = history !! other.
Proof.
  intros Hne. unfold raise_maximum. destruct (history !! id) as [m |].
  - destruct (m <? n); [apply lookup_insert_ne; congruence | reflexivity].
  - apply lookup_insert_ne. congruence.
Qed.

Lemma raise_maximum_monotone (history : gmap string Z) (id other : string)
    (n m : Z) :
  history !! other = Some m ->
  exists m', raise_maximum history id n !! other = Some m' /\ m <= m'.
Proof.
  intros Hold. destruct (decide (other = id)) as [-> | Hne].
  - rewrite raise_maximum_lookup, Hold. eexists. split; [reflexivity | lia].
  - rewrite raise_maximum_other by exact Hne. exists m. split; [exact Hold | lia].
Qed.

Lemma health_check_history (history : gmap string Z) (device : Core.USBDevice)
    (speed_str : string) :
  Ui.history_cache (Ui.health_check history device speed_str) =
    match Py.int (Core.speed device) with
    | Some n => raise_maximum history (Core.stable_id device) n
    | None => history
    end.
Proof.
  destruct (Py.int (Core.speed device)) as [n |] eqn:Hint.
  - destruct (health_check_numeric history device speed_str n Hint) as [Hcache _].
    exact Hcache.
  - unfold Ui.health_check. rewrite Hint. reflexivity.
Qed.

Lemma update_view_history (history : gmap string Z) (device : Core.USBDevice)
    (connected : bool) :
  fst (Ui.update_view history device connected) =
    if connected && processed device then
      match Py.int (Core.speed device) with
      | Some n => raise_maximum history (Core.stable_id device) n
      | None => history
      end
    else history.
Proof.
  unfold Ui.update_view, processed. destruct connected; [| reflexivity].
  destruct (Utils.format_speed (Core.speed device)) as [[speed_str label] | e];
    [| reflexivity].
  cbn [andb]. rewrite <- (health_check_history history device speed_str).
  destruct (Ui.is_downgraded _); [destruct (Ui.downgrade_msg _) |]; reflexivity.
Qed.

(** The history after the handler, in closed form: it is touched only
    on the monitoring page, for the watched identity, by a processed
    add, bind or change. *)
Lemma handle_device_event_history (self : Ui.MainWindow) (now_str : string)
    (enumeration : list Core.UdevDevice) (action : string)
    (device : Core.USBDevice) :
  Ui.device_history
    (fst (Ui.handle_device_event self now_str enumeration action device))
  = if processed device
       && String.eqb (Ui.visible_child_name self) "monitoring"
       && bool_decide (Some (Core.stable_id device) = Ui.current_target_id self)
       && (String.eqb action "add" || String.eqb action "bind"
           || String.eqb action "change")
    then
      match Py.int (Core.speed device) with
      | Some n =>
          raise_maximum (Ui.device_history self) (Core.stable_id device) n
      | None => Ui.device_history self
      end
    else Ui.device_history self.
Proof.
  unfold Ui.handle_device_event.
  destruct (Ui.update_registry _ _ _ _ _) as [registry friendly_name].
  unfold Ui.make_log_entry.
  pose proof (update_view_history (Ui.device_history self) device true) as Hon.
  pose proof (update_view_history (Ui.device_history self) device false) as Hoff.
  unfold processed in *.
  destruct (Utils.format_speed (Core.speed device)) as [[formatted label] | e];
    [| reflexivity].
  cbn [andb] in *. unfold Ui.dispatch_to_page.
  cbn [Ui.visible_child_name Ui.device_history Ui.current_target_id].
  destruct (String.eqb_spec (Ui.visible_child_name self) "selection") as [Hsel | _].
  { rewrite Hsel. cbn.
    destruct (String.eqb action "add" || String.eqb action "remove"); reflexivity. }
  destruct (String.eqb (Ui.visible_child_name self) "monitoring"); [| reflexivity].
  destruct (bool_decide _); [| reflexivity].
  destruct (String.eqb action "add" || String.eqb action "bind"
            || String.eqb action "change").
  - destruct (Ui.update_view _ _ true) as [history r]. exact Hon.
  - destruct (String.eqb action "remove" || String.eqb action "unbind");
      [| reflexivity].
    destruct (Ui.update_view _ _ false) as [history r]. exact Hoff.
Qed.

(** X13: over every sequence of handled events, whatever their
    outcome, no identity is dropped from the speed history and no
    stored maximum decreases. *)
Theorem speed_history_never_decreases
    (events : list (string * list Core.UdevDevice * string * Core.USBDevice))
    (self : Ui.MainWindow) (id : string) (m : Z) :
  Ui.device_history self !! id = Some m ->
  exists m',
    Ui.device_history (Ui.handle_all self events) !! id = Some m' /\ m <= m'.
Proof.
  revert self m.
  induction events as [| [[[now_str enumeration] action] device] events IH];
    intros self m Hold.
  - exists m. split; [exact Hold | lia].
  - unfold Ui.handle_all. cbn [foldl].
    fold (Ui.handle_all
            (fst (Ui.handle_device_event self now_str enumeration action device))
            events).
    assert (Hstep : exists m1,
      Ui.device_history
        (fst (Ui.handle_device_event self now_str enumeration action device))
        !! id = Some m1 /\ m <= m1).
    { rewrite handle_device_event_history.
      destruct (_ && _ && _ && _); [| exists m; split; [exact Hold | lia]].
      destruct (Py.int (Core.speed device)) as [n |];
        [apply raise_maximum_monotone, Hold | exists m; split; [exact Hold | lia]]. }
    destruct Hstep as (m1 & Hm1 & Hle1).
    destruct (IH _ m1 Hm1) as (m' & Hm' & Hle').
    exists m'. split; [exact Hm' | lia].
Qed.

Lemma speed_history_never_decreases_witness :
  exists m',
    Ui.device_history
      (Ui.handle_all
         {| Ui.device_history := <["SERIAL:XYZ" := 5000]> ∅;
            Ui.event_log := [];
            Ui.device_registry := ∅;
            Ui.device_manager := Core.DeviceManager_init;
            Ui.visible_child_name := "monitoring";
            Ui.current_target_id := Some "SERIAL:XYZ" |}
         [("10:00:00", [], "change",
           snapshot "/sys/devices/usb1/1-2" "1-2" (Some "XYZ") "Acme" "Widget" "480")])
      !! "SERIAL:XYZ" = Some m' /\ 5000 <= m'.
Proof.
  apply (speed_history_never_decreases
           [("10:00:00", [], "change",
             snapshot "/sys/devices/usb1/1-2" "1-2" (Some "XYZ") "Acme" "Widget" "480")]
           {| Ui.device_history := <["SERIAL:XYZ" := 5000]> ∅;
              Ui.event_log := [];
              Ui.device_registry := ∅;
              Ui.device_manager := Core.DeviceManager_init;
              Ui.visible_child_name := "monitoring";
              Ui.current_target_id := Some "SERIAL:XYZ" |}
           "SERIAL:XYZ" 5000).
  reflexivity.
Defined.

(** X14: the handler changes the speed history only on the monitoring
    page, for an add, bind or change of the watched identity; on the
    selection page, for another identity, or for a remove or unbind it
    leaves the history as it is, and it never changes the entry of
    another identity than the event's. *)
Theorem speed_history_changes_only_for_watched_device (self : Ui.MainWindow)
    (now_str : string) (enumeration : list Core.UdevDevice) (action : string)
    (device : Core.USBDevice) :
  (Ui.visible_child_name self <> "monitoring" \/
   Ui.current_target_id self <> Some (Core.stable_id device) \/
   (action <> "add" /\ action <> "bind" /\ action <> "change") ->
   Ui.device_history
     (fst (Ui.handle_device_event self now_str enumeration action device))
   = Ui.device_history self) /\
  (forall other, other <> Core.stable_id device ->
     Ui.device_history
       (fst (Ui.handle_device_event self now_str enumeration action device))
       !! other
     = Ui.device_history self !! other).
Proof.
  rewrite handle_device_event_history. split.
  - intros Hoff.
    destruct (String.eqb_spec (Ui.visible_child_name self) "monitoring") as [Hmon | _];
      [| rewrite andb_false_r; reflexivity].
    destruct (bool_decide_reflect
                (Some (Core.stable_id device) = Ui.current_target_id self))
      as [Htarget | _]; [| rewrite andb_false_r; reflexivity].
    destruct (String.eqb_spec action "add") as [Hadd | _];
      [destruct Hoff as [? | [? | [? _]]]; congruence |].
    destruct (String.eqb_spec action "bind") as [Hbind | _];
      [destruct Hoff as [? | [? | (_ & ? & _)]]; congruence |].
    destruct (String.eqb_spec action "change") as [Hchange | _];
      [destruct Hoff as [? | [? | (_ & _ & ?)]]; congruence |].
    rewrite andb_false_r. reflexivity.
  - intros other Hne.
    destruct (_ && _ && _ && _); [| reflexivity].
    destruct (Py.int (Core.speed device)); [| reflexivity].
    apply raise_maximum_other. exact Hne.
Qed.

Lemma speed_history_changes_only_for_watched_device_witness :
  Ui.device_history
    (fst (Ui.handle_device_event fresh_window "10:00:00" [] "add"
            (snapshot "/sys/devices/usb1/1-2" "1-2" (Some "XYZ") "Acme" "Widget" "5000")))
  = Ui.device_history fresh_window.
Proof.
  destruct (speed_history_changes_only_for_watched_device fresh_window "10:00:00" []
              "add"
              (snapshot "/sys/devices/usb1/1-2" "1-2" (Some "XYZ") "Acme" "Widget" "5000"))
    as [Hoff _].
  apply Hoff. left. discriminate.
Defined.



(** ** The registry under the handler *)

Lemma update_registry_grows (registry : gmap string Ui.RegistryEntry)
    (id candidate speed now_str other : string) (entry : Ui.RegistryEntry) :
  registry !! other = Some entry ->
  exists entry',
    fst (Ui.update_registry registry id candidate speed now_str) !! other
      = Some entry' /\
    Ui.speeds entry ⊆ Ui.speeds entry'.
Proof.
  intros Hin. destruct (decide (other = id)) as [-> | Hne].
  - rewrite (update_registry_same _ _ _ _ _ _ Hin). eexists. split; [reflexivity |].
    cbn [Ui.speeds]. destruct (Py.int speed); set_solver.
  - rewrite update_registry_other by exact Hne. exists entry. split; [exact Hin | done].
Qed.

Lemma update_registry_registers (registry : gmap string Ui.RegistryEntry)
    (id candidate speed now_str : string) :
  exists entry',
    fst (Ui.update_registry registry id candidate speed now_str) !! id
      = Some entry' /\
    Ui.last_seen entry' = now_str /\
    (forall n, Py.int speed = Some n -> n ∈ Ui.speeds entry').
Proof.
  destruct (registry !! id) as [entry |] eqn:Hin.
  - rewrite (update_registry_same _ _ _ _ _ _ Hin). eexists. split; [reflexivity |].
    split; [reflexivity |]. intros n ->. cbn [Ui.speeds]. set_solver.
  - rewrite (update_registry_new _ _ _ _ _ Hin). eexists. split; [reflexivity |].
    split; [reflexivity |]. intros n ->. cbn [Ui.speeds]. set_solver.
Qed.

(** X16: the registry only accumulates.  Over every sequence of
    handled events, whatever their outcome, an identity that is
    registered stays registered and keeps every speed observed for it;
    and the identity of a handled event is registered afterwards, with
    the time of the event as its last-seen time and with the speed of
    the event among its speeds when the reading is numeric. *)
Theorem registry_only_accumulates :
  (forall (events : list (string * list Core.UdevDevice * string * Core.USBDevice))
          (self : Ui.MainWindow) (id : string) (entry : Ui.RegistryEntry),
     Ui.device_registry self !! id = Some entry ->
     exists entry',
       Ui.device_registry (Ui.handle_all self events) !! id = Some entry' /\
       Ui.speeds entry ⊆ Ui.speeds entry') /\
  (forall (self : Ui.MainWindow) (now_str : string)
          (enumeration : list Core.UdevDevice) (action : string)
          (device : Core.USBDevice),
     exists entry',
       Ui.device_registry
         (fst (Ui.handle_device_event self now_str enumeration action device))
         !! Core.stable_id device = Some entry' /\
       Ui.last_seen entry' = now_str /\
       (forall n, Py.int (Core.speed device) = Some n -> n ∈ Ui.speeds entry')).
Proof.
  split.
  - induction events as [| [[[now_str enumeration] action] device] events IH];
      intros self id entry Hin.
    + exists entry. split; [exact Hin | done].
    + unfold Ui.handle_all. cbn [foldl].
      fold (Ui.handle_all
              (fst (Ui.handle_device_event self now_str enumeration action device))
              events).
      destruct (update_registry_grows (Ui.device_registry self)
                  (Core.stable_id device) (Core.get_friendly_name device)
                  (Core.speed device) now_str id entry Hin)
        as (entry1 & Hin1 & Hsub1).
      rewrite <- handle_device_event_registry with (enumeration := enumeration)
        (action := action) in Hin1.
      destruct (IH _ id entry1 Hin1) as (entry' & Hin' & Hsub').
      exists entry'. split; [exact Hin' | set_solver].
  - intros self now_str enumeration action device.
    rewrite handle_device_event_registry. apply update_registry_registers.
Qed.

Lemma registry_only_accumulates_witness :
  exists entry',
    Ui.device_registry
      (Ui.handle_all
         {| Ui.device_history := ∅;
            Ui.event_log := [];
            Ui.device_registry :=
              <["SERIAL:XYZ" := {| Ui.name := "Acme Widget"; Ui.speeds := {[5000]};
                                   Ui.last_seen := "10:00:00" |}]> ∅;
            Ui.device_manager := Core.DeviceManager_init;
            Ui.visible_child_name := "selection";
            Ui.current_target_id := None |}
         [("10:00:09", [], "remove",
           snapshot "/sys/devices/usb1/1-2" "1-2" (Some "XYZ") "Unknown" "Unknown" "N/A")])
      !! "SERIAL:XYZ" = Some entry' /\
    Ui.speeds {| Ui.name := "Acme Widget"; Ui.speeds := {[5000]};
                 Ui.last_seen := "10:00:00" |} ⊆ Ui.speeds entry'.
Proof.
  destruct registry_only_accumulates as [Hkeep _].
  apply (Hkeep
           [("10:00:09", [], "remove",
             snapshot "/sys/devices/usb1/1-2" "1-2" (Some "XYZ") "Unknown" "Unknown" "N/A")]
           {| Ui.device_history := ∅;
              Ui.event_log := [];
              Ui.device_registry :=
                <["SERIAL:XYZ" := {| Ui.name := "Acme Widget"; Ui.speeds := {[5000]};
                                     Ui.last_seen := "10:00:00" |}]> ∅;
              Ui.device_manager := Core.DeviceManager_init;
              Ui.visible_child_name := "selection";
              Ui.current_target_id := None |}
           "SERIAL:XYZ").
  reflexivity.
Defined.

(** X17: when the speed of an event cannot be formatted, the handler
    raises [OverflowError] after it has updated the registry and
    before it logs: the event log, the speed history and the device
    manager are as before, while the identity is registered with the
    time of the event. *)
Theorem unformattable_event_is_registered_but_not_logged (self : Ui.MainWindow)
    (now_str : string) (enumeration : list Core.UdevDevice) (action : string)
    (device : Core.USBDevice) :
  processed device = false ->
  snd (Ui.handle_device_event self now_str enumeration action device)
    = Py.Raise Py.OverflowError /\
  Ui.event_log (fst (Ui.handle_device_event self now_str enumeration action device))
    = Ui.event_log self /\
  Ui.device_history
    (fst (Ui.handle_device_event self now_str enumeration action device))
    = Ui.device_history self /\
  Ui.device_manager
    (fst (Ui.handle_device_event self now_str enumeration action device))
    = Ui.device_manager self /\
  exists entry',
    Ui.device_registry
      (fst (Ui.handle_device_event self now_str enumeration action device))
      !! Core.stable_id device = Some entry' /\
    Ui.last_seen entry' = now_str.
Proof.
  intros Hun.
  destruct (update_registry_registers (Ui.device_registry self)
              (Core.stable_id device) (Core.get_friendly_name device)
              (Core.speed device) now_str) as (entry' & Hin' & Hseen & _).
  rewrite <- handle_device_event_registry with (enumeration := enumeration)
    (action := action) in Hin'.
  rewrite handle_device_event_history, Hun.
  destruct (unprocessed_event_raises self now_str enumeration action device Hun)
    as [Hlog _].
  split; [| split; [exact Hlog | split; [reflexivity | split]]].
  - unfold processed in Hun. unfold Ui.handle_device_event.
    destruct (Ui.update_registry _ _ _ _ _) as [registry friendly_name].
    unfold Ui.make_log_entry.
    destruct (Utils.format_speed (Core.speed device)) as [[formatted label] | e] eqn:Hfmt;
      [discriminate |].
    destruct (format_speed_exception_kind _ _ Hfmt). reflexivity.
  - unfold processed in Hun. unfold Ui.handle_device_event.
    destruct (Ui.update_registry _ _ _ _ _) as [registry friendly_name].
    unfold Ui.make_log_entry.
    destruct (Utils.format_speed (Core.speed device)) as [[formatted label] | e];
      [discriminate | reflexivity].
  - exists entry'. split; [exact Hin' | exact Hseen].
Qed.

Lemma unformattable_event_is_registered_but_not_logged_witness :
  snd (Ui.handle_device_event fresh_window "10:00:00" [] "add"
         (snapshot "/sys/devices/usb1/1-2" "1-2" (Some "XYZ") "Acme" "Widget"
            (String "1" (string_of_list_ascii (repeat "0"%char 400)))))
  = Py.Raise Py.OverflowError.
Proof.
  destruct (unformattable_event_is_registered_but_not_logged fresh_window
              "10:00:00" [] "add"
              (snapshot "/sys/devices/usb1/1-2" "1-2" (Some "XYZ") "Acme" "Widget"
                 (String "1" (string_of_list_ascii (repeat "0"%char 400)))))
    as [Hraise _].
  - vm_compute. reflexivity.
  - exact Hraise.
Defined.

(** ** What the log shows *)

(** X18: the name in the entry of a processed event is the registry's
    name for the identity when the snapshot's own name is a
    placeholder and the identity is registered, and the snapshot's own
    name otherwise; the bus field is bus number and port joined by a
    dash. *)
Theorem logged_name_falls_back_to_registry (self : Ui.MainWindow)
    (now_str : string) (enumeration : list Core.UdevDevice) (action : string)
    (device : Core.USBDevice) :
  processed device = true ->
  exists entry,
    Ui.event_log
      (fst (Ui.handle_device_event self now_str enumeration action device))
    = (Ui.event_log self ++ [entry])%list /\
    Ui.device_name entry =
      match Ui.device_registry self !! Core.stable_id device with
      | Some known =>
          if Ui.is_unknown_name (Core.get_friendly_name device)
          then Ui.name known else Core.get_friendly_name device
      | None => Core.get_friendly_name device
      end /\
    Ui.bus entry = Core.bus_num device +:+ "-" +:+ Core.sys_name device.
Proof.
  intros Hproc.
  destruct (processed_formats device Hproc) as (formatted & label & Hfmt).
  rewrite handle_device_event_log, (make_log_entry_formats _ _ _ _ _ _ Hfmt).
  eexists. split; [reflexivity |]. split; reflexivity.
Qed.

Lemma logged_name_falls_back_to_registry_witness :
  exists entry,
    Ui.event_log
      (fst (Ui.handle_device_event
              {| Ui.device_history := ∅;
                 Ui.event_log := [];
                 Ui.device_registry :=
                   <["SERIAL:XYZ" := {| Ui.name := "Acme Widget"; Ui.speeds := {[5000]};
                                        Ui.last_seen := "10:00:00" |}]> ∅;
                 Ui.device_manager := Core.DeviceManager_init;
                 Ui.visible_child_name := "selection";
                 Ui.current_target_id := None |}
              "10:00:09" [] "remove"
              (Core.set_forced_stable_id "SERIAL:XYZ"
                 (Core.USBDevice_init (raw_device "/sys/devices/usb1/1-2" "1-2" [])))))
    = ([] ++ [entry])%list /\
    Ui.device_name entry = "Acme Widget" /\
    Ui.bus entry = "?-1-2".
Proof.
  destruct (logged_name_falls_back_to_registry
              {| Ui.device_history := ∅;
                 Ui.event_log := [];
                 Ui.device_registry :=
                   <["SERIAL:XYZ" := {| Ui.name := "Acme Widget"; Ui.speeds := {[5000]};
                                        Ui.last_seen := "10:00:00" |}]> ∅;
                 Ui.device_manager := Core.DeviceManager_init;
                 Ui.visible_child_name := "selection";
                 Ui.current_target_id := None |}
              "10:00:09" [] "remove"
              (Core.set_forced_stable_id "SERIAL:XYZ"
                 (Core.USBDevice_init (raw_device "/sys/devices/usb1/1-2" "1-2" [])))
              eq_refl) as (entry & Hlog & Hname & Hbus).
  exists entry. split; [exact Hlog |].
  split; [refine (eq_trans Hname _) | refine (eq_trans Hbus _)]; reflexivity.
Defined.

Lemma create_log_view_rev (event_log : list Ui.LogEntry) :
  Ui._create_log_view event_log = rev event_log.
Proof.
  unfold Ui._create_log_view.
  induction (rev event_log) as [| entry rows IH] using rev_ind; [reflexivity |].
  rewrite foldl_snoc, IH. reflexivity.
Qed.

(** X19: the history window lists the log with the newest entry on
    top, and adding a new event to an open window gives the rows that
    opening the window after the event gives. *)
Theorem log_view_is_newest_first (event_log : list Ui.LogEntry)
    (log_entry : Ui.LogEntry) :
  Ui._create_log_view event_log = rev event_log /\
  Ui.add_event_to_list (Ui._create_log_view event_log) log_entry true
  = Ui._create_log_view (event_log ++ [log_entry]).
Proof.
  split; [apply create_log_view_rev |].
  rewrite !create_log_view_rev, rev_unit. reflexivity.
Qed.

(** ** Persistence *)

(** X20: what [save_history] writes, [load_history] reads back: the
    speed history and the event log are restored as they were, and the
    registry entries are restored, with their sets of speeds, over the
    registry the loading window has; a fresh window therefore gets
    exactly the registry that was saved.  Without a file the window is
    unchanged. *)
Theorem load_history_restores_saved_state (self saved : Ui.MainWindow) :
  Ui.device_history (Ui.load_history self (Some (Ui.save_history saved)))
    = Ui.device_history saved /\
  Ui.event_log (Ui.load_history self (Some (Ui.save_history saved)))
    = Ui.event_log saved /\
  Ui.device_registry (Ui.load_history self (Some (Ui.save_history saved)))
    = Ui.device_registry saved ∪ Ui.device_registry self /\
  Ui.device_registry (Ui.load_history fresh_window (Some (Ui.save_history saved)))
    = Ui.device_registry saved /\
  Ui.load_history self None = self.
Proof.
  assert (Hround :
    (fun entry =>
       {| Ui.name := Ui.s_name entry;
          Ui.speeds := list_to_set (Ui.s_speeds entry);
          Ui.last_seen := Ui.s_last_seen entry |})
    <$> ((fun entry =>
            {| Ui.s_name := Ui.name entry;
               Ui.s_speeds := elements (Ui.speeds entry);
               Ui.s_last_seen := Ui.last_seen entry |})
         <$> Ui.device_registry saved)
    = Ui.device_registry saved).
  { apply map_eq. intros id. rewrite !lookup_fmap.
    destruct (Ui.device_registry saved !! id) as [[name speeds last_seen] |];
      [| reflexivity].
    cbn. rewrite list_to_set_elements_L. reflexivity. }
  repeat split; cbn; try reflexivity.
  - rewrite Hround. reflexivity.
  - rewrite Hround. apply (right_id_L ∅ (∪)).
Qed.

(** ** Pages *)

Lemma list_devices_returns (enumeration : list Core.UdevDevice)
    (self : Core.DeviceManager) :
  snd (Core.list_devices self enumeration)
  = map Core.USBDevice_init enumeration.
Proof.
  induction enumeration as [| x l IH] using rev_ind; [reflexivity |].
  rewrite list_devices_snoc, map_app. cbn [snd]. rewrite IH. reflexivity.
Qed.

Lemma on_monitor_clicked_history (self : Ui.MainWindow)
    (device : Core.USBDevice) :
  Ui.device_history (fst (Ui.on_monitor_clicked self (Some device)))
  = fst (Ui.update_view (Ui.device_history self) device true).
Proof.
  unfold Ui.on_monitor_clicked.
  destruct (Ui.update_view _ _ _) as [history [view | e]]; reflexivity.
Qed.

(** X21: after "Monitor Selected" on a device whose speed is numeric
    and can be formatted, the next refresh of the lists shows every
    enumerated device of the same identity under "Previously
    Monitored". *)
Theorem monitored_device_is_listed_as_known (self : Ui.MainWindow)
    (device : Core.USBDevice) (n : Z) (enumeration : list Core.UdevDevice)
    (u : Core.UdevDevice) :
  Py.int (Core.speed device) = Some n ->
  processed device = true ->
  u ∈ enumeration ->
  Core.stable_id (Core.USBDevice_init u) = Core.stable_id device ->
  Core.USBDevice_init u ∈
    fst (snd (Ui.refresh_devices (fst (Ui.on_monitor_clicked self (Some device)))
                enumeration)).
Proof.
  intros Hint Hproc Hu Hid. unfold Ui.refresh_devices.
  pose proof (list_devices_returns enumeration
                (Ui.device_manager (fst (Ui.on_monitor_clicked self (Some device)))))
    as Hret.
  destruct (Core.list_devices _ enumeration) as [manager devices].
  cbn [snd] in Hret. subst devices. cbn [fst snd].
  apply list_elem_of_filter. split.
  - apply bool_decide_spec.
    rewrite Hid, on_monitor_clicked_history, update_view_history, Hproc, Hint.
    cbn [andb]. rewrite raise_maximum_lookup. eexists. reflexivity.
  - apply list_elem_of_fmap. exists u. split; [reflexivity | exact Hu].
Qed.

Lemma monitored_device_is_listed_as_known_witness :
  Core.USBDevice_init
    (raw_device "/sys/devices/usb1/1-2" "1-2"
       [("ID_SERIAL_SHORT", "XYZ"); ("SPEED", "480")])
  ∈ fst (snd (Ui.refresh_devices
                (fst (Ui.on_monitor_clicked fresh_window
                        (Some (snapshot "/sys/devices/usb1/1-2" "1-2" (Some "XYZ")
                                 "Acme" "Widget" "5000"))))
                [raw_device "/sys/devices/usb1/1-2" "1-2"
                   [("ID_SERIAL_SHORT", "XYZ"); ("SPEED", "480")]])).
Proof.
  apply (monitored_device_is_listed_as_known fresh_window
           (snapshot "/sys/devices/usb1/1-2" "1-2" (Some "XYZ") "Acme" "Widget" "5000")
           5000
           [raw_device "/sys/devices/usb1/1-2" "1-2"
              [("ID_SERIAL_SHORT", "XYZ"); ("SPEED", "480")]]
           (raw_device "/sys/devices/usb1/1-2" "1-2"
              [("ID_SERIAL_SHORT", "XYZ"); ("SPEED", "480")])).
  - reflexivity.
  - reflexivity.
  - apply list_elem_of_singleton. reflexivity.
  - reflexivity.
Defined.

Lemma dispatch_to_page_keeps_page (self : Ui.MainWindow)
    (enumeration : list Core.UdevDevice) (action : string)
    (device : Core.USBDevice) :
  Ui.visible_child_name (fst (Ui.dispatch_to_page self enumeration action device))
    = Ui.visible_child_name self /\
  Ui.current_target_id (fst (Ui.dispatch_to_page self enumeration action device))
    = Ui.current_target_id self.
Proof.
  unfold Ui.dispatch_to_page.
  destruct (String.eqb (Ui.visible_child_name self) "selection").
  - destruct (String.eqb action "add" || String.eqb action "remove"); split; reflexivity.
  - destruct (String.eqb (Ui.visible_child_name self) "monitoring"); [| split; reflexivity].
    destruct (bool_decide _); [| split; reflexivity].
    destruct (String.eqb action "add" || String.eqb action "bind"
              || String.eqb action "change").
    + destruct (Ui.update_view _ _ _) as [history r]. split; reflexivity.
    + destruct (String.eqb action "remove" || String.eqb action "unbind");
        [| split; reflexivity].
      destruct (Ui.update_view _ _ _) as [history r]. split; reflexivity.
Qed.

Lemma handle_device_event_keeps_page (self : Ui.MainWindow) (now_str : string)
    (enumeration : list Core.UdevDevice) (action : string)
    (device : Core.USBDevice) :
  Ui.visible_child_name
    (fst (Ui.handle_device_event self now_str enumeration action device))
    = Ui.visible_child_name self /\
  Ui.current_target_id
    (fst (Ui.handle_device_event self now_str enumeration action device))
    = Ui.current_target_id self.
Proof.
  unfold Ui.handle_device_event.
  destruct (Ui.update_registry _ _ _ _ _) as [registry friendly_name].
  destruct (Ui.make_log_entry _ _ _ _) as [log_entry | e]; [| split; reflexivity].
  destruct (dispatch_to_page_keeps_page
              {| Ui.device_history := Ui.device_history self;
                 Ui.event_log := (Ui.event_log self ++ [log_entry])%list;
                 Ui.device_registry := registry;
                 Ui.device_manager := Ui.device_manager self;
                 Ui.visible_child_name := Ui.visible_child_name self;
                 Ui.current_target_id := Ui.current_target_id self |}
              enumeration action device) as [-> ->].
  split; reflexivity.
Qed.

(** X22: no event switches the page or the watched identity, and off
    the monitoring page no sequence of events changes the speed
    history; in particular the history stays as it is from "stop" on,
    whatever events follow. *)
Theorem history_is_frozen_off_the_monitoring_page
    (events : list (string * list Core.UdevDevice * string * Core.USBDevice))
    (self : Ui.MainWindow) :
  Ui.visible_child_name (Ui.handle_all self events) = Ui.visible_child_name self /\
  Ui.current_target_id (Ui.handle_all self events) = Ui.current_target_id self /\
  (Ui.visible_child_name self <> "monitoring" ->
   Ui.device_history (Ui.handle_all self events) = Ui.device_history self) /\
  (forall enumeration,
     Ui.device_history (Ui.handle_all (Ui.on_stop_clicked self enumeration) events)
     = Ui.device_history self).
Proof.
  assert (Hpage : forall events self,
    Ui.visible_child_name (Ui.handle_all self events) = Ui.visible_child_name self /\
    Ui.current_target_id (Ui.handle_all self events) = Ui.current_target_id self).
  { clear. induction events as [| [[[now_str enumeration] action] device] events IH];
      intros self; [split; reflexivity |].
    unfold Ui.handle_all. cbn [foldl].
    fold (Ui.handle_all
            (fst (Ui.handle_device_event self now_str enumeration action device))
            events).
    destruct (IH (fst (Ui.handle_device_event self now_str enumeration action device)))
      as [-> ->].
    apply handle_device_event_keeps_page. }
  assert (Hfrozen : forall events self,
    Ui.visible_child_name self <> "monitoring" ->
    Ui.device_history (Ui.handle_all self events) = Ui.device_history self).
  { clear Hpage. clear.
    induction events as [| [[[now_str enumeration] action] device] events IH];
      intros self Hoff; [reflexivity |].
    unfold Ui.handle_all. cbn [foldl].
    fold (Ui.handle_all
            (fst (Ui.handle_device_event self now_str enumeration action device))
            events).
    rewrite IH.
    - rewrite handle_device_event_history.
      destruct (String.eqb_spec (Ui.visible_child_name self) "monitoring");
        [contradiction |].
      rewrite andb_false_r. reflexivity.
    - rewrite (proj1 (handle_device_event_keeps_page _ _ _ _ _)). exact Hoff. }
  destruct (Hpage events self) as [Hvis Htarget].
  split; [exact Hvis | split; [exact Htarget | split; [apply Hfrozen |]]].
  intros enumeration. rewrite Hfrozen.
  - unfold Ui.on_stop_clicked, Ui.refresh_devices.
    destruct (Core.list_devices _ _). reflexivity.
  - unfold Ui.on_stop_clicked, Ui.refresh_devices.
    destruct (Core.list_devices _ _). cbn. discriminate.
Qed.

Lemma history_is_frozen_off_the_monitoring_page_witness :
  Ui.device_history
    (Ui.handle_all fresh_window
       [("10:00:00", [], "add",
         snapshot "/sys/devices/usb1/1-2" "1-2" (Some "XYZ") "Acme" "Widget" "5000")])
  = Ui.device_history fresh_window.
Proof.
  destruct (history_is_frozen_off_the_monitoring_page
              [("10:00:00", [], "add",
                snapshot "/sys/devices/usb1/1-2" "1-2" (Some "XYZ") "Acme" "Widget" "5000")]
              fresh_window) as (_ & _ & Hfrozen & _).
  apply Hfrozen. discriminate.
Defined.

(** ** The chart *)

(** X23: for a numeric reading the chart highlights the node of the
    largest tier that is not above the speed, and the 480 node for a
    speed below every tier; for a reading that is not a number,
    "N/A" and the empty reading included, it highlights no node. *)
Theorem chart_highlights_the_tier_of_the_speed (speed_mbps_str : string) :
  Ui.set_active_speed speed_mbps_str =
    (fun val => Py.str (chart_tier val)) <$> Py.int speed_mbps_str /\
  (forall val node,
     node ∈ [480; 5000; 10000; 20000; 40000; 80000] ->
     node <= val -> node <= chart_tier val <= val).
Proof.
  split.
  - unfold Ui.set_active_speed.
    destruct (negb (Py.nonempty speed_mbps_str) || String.eqb speed_mbps_str "N/A")
      eqn:Hna.
    + apply orb_true_iff in Hna as [Hempty | Hna].
      * destruct speed_mbps_str; [reflexivity | discriminate].
      * apply String.eqb_eq in Hna. subst. reflexivity.
    + destruct (bool_decide_reflect (speed_mbps_str ∈ Ui.chart_nodes)) as [Hin | _].
      * unfold Ui.chart_nodes in Hin.
        repeat (apply elem_of_cons in Hin as [-> | Hin]; [reflexivity |]).
        inversion Hin.
      * destruct (Py.int speed_mbps_str) as [val |]; [| reflexivity].
        cbn [fmap option_fmap option_map]. unfold chart_tier.
        repeat (match goal with
                | |- context [if ?a <? ?b then _ else _] => destruct (a <? b)
                end); reflexivity.
  - intros val node Hin Hle. unfold chart_tier.
    repeat (apply elem_of_cons in Hin as [-> | Hin];
            [repeat (match goal with
                     | |- context [if ?a <? ?b then _ else _] =>
                         destruct (Z.ltb_spec a b)
                     end); lia |]).
    inversion Hin.
Qed.

Lemma chart_highlights_the_tier_of_the_speed_witness :
  Ui.set_active_speed "12000" = Some "10000" /\
  10000 <= chart_tier 12000 <= 12000.
Proof.
  destruct (chart_highlights_the_tier_of_the_speed "12000") as [Hactive Htier].
  split.
  - refine (eq_trans Hactive _). reflexivity.
  - apply (Htier 12000 10000); [| discriminate].
    apply elem_of_cons. right. apply elem_of_cons. right.
    apply elem_of_cons. left. reflexivity.
Defined.

(** ** An integer and its decimal string *)







(** ** When the page and the handler raise *)





(** ** Downgrades are relative to the best speed ever seen *)

Lemma observe_all_lookup (readings : list string) (values : list Z) :
  Forall2 (fun reading value => Py.int reading = Some value) readings values ->
  forall (history : gmap string Z) (device : Core.USBDevice) (m : Z),
    history !! Core.stable_id device = Some m ->
    observe_all history device readings !! Core.stable_id device
    = Some (foldl Z.max m values).
Proof.
  induction 1 as [| reading value readings values Hint _ IH];
    intros history device m Hold; [exact Hold |].
  unfold observe_all. cbn [foldl]. fold (observe_all
    (Ui.history_cache (Ui.health_check history (with_speed reading device) ""))
    device readings).
  apply IH. rewrite health_check_history. cbn [with_speed Core.speed].
  rewrite Hint, stable_id_with_speed, raise_maximum_lookup, Hold. reflexivity.
Qed.

(** X25: whether a reading counts as a downgrade depends on the best
    speed ever recorded for the identity, not on the reading before
    it: after any series of numeric readings for a device with stored
    maximum [m], a new reading [n] is flagged as downgraded exactly
    when it is below the largest of [m] and all readings of the
    series, and that largest value is reported as the known
    maximum. *)
Theorem downgrade_is_relative_to_the_best_ever (history : gmap string Z)
    (device : Core.USBDevice) (m : Z) (readings : list string)
    (values : list Z) (reading speed_str : string) (n : Z) :
  history !! Core.stable_id device = Some m ->
  Forall2 (fun reading value => Py.int reading = Some value) readings values ->
  Py.int reading = Some n ->
  Ui.is_downgraded
    (Ui.health_check (observe_all history device readings)
       (with_speed reading device) speed_str)
  = (n <? foldl Z.max m values) /\
  Ui.known_max
    (Ui.health_check (observe_all history device readings)
       (with_speed reading device) speed_str)
  = Z.max (foldl Z.max m values) n.
Proof.
  intros Hold Hreadings Hint.
  pose proof (observe_all_lookup readings values Hreadings history device m Hold)
    as Hbest.
  destruct (health_check_numeric (observe_all history device readings)
              (with_speed reading device) speed_str n Hint)
    as (_ & _ & Hdown & Hmax).
  rewrite stable_id_with_speed, Hbest in Hdown, Hmax.
  split; assumption.
Qed.

Lemma downgrade_is_relative_to_the_best_ever_witness :
  Ui.is_downgraded
    (Ui.health_check
       (observe_all (<["SERIAL:XYZ" := 480]> ∅)
          (snapshot "/sys/devices/usb1/1-2" "1-2" (Some "XYZ") "Acme" "Widget" "N/A")
          ["10000"; "480"])
       (with_speed "5000"
          (snapshot "/sys/devices/usb1/1-2" "1-2" (Some "XYZ") "Acme" "Widget" "N/A"))
       "5 Gbps")
  = (5000 <? foldl Z.max 480 [10000; 480])
  /\
  Ui.known_max
    (Ui.health_check
       (observe_all (<["SERIAL:XYZ" := 480]> ∅)
          (snapshot "/sys/devices/usb1/1-2" "1-2" (Some "XYZ") "Acme" "Widget" "N/A")
          ["10000"; "480"])
       (with_speed "5000"
          (snapshot "/sys/devices/usb1/1-2" "1-2" (Some "XYZ") "Acme" "Widget" "N/A"))
       "5 Gbps")
  = Z.max (foldl Z.max 480 [10000; 480]) 5000.
Proof.
  apply (downgrade_is_relative_to_the_best_ever (<["SERIAL:XYZ" := 480]> ∅)
           (snapshot "/sys/devices/usb1/1-2" "1-2" (Some "XYZ") "Acme" "Widget" "N/A")
           480 ["10000"; "480"] [10000; 480] "5000" "5 Gbps" 5000).
  - reflexivity.
  - repeat constructor.
  - reflexivity.
Defined.
